(** * cms-back-office: authorization, session and tenant selection

    A shallow embedding of the client-side authorization subsystem:

    - [SidebarRules]   src/sidebar/sidebarRules.ts   (rule engine)
    - [AuthContext]    contexts/AuthContext.tsx      (session manager)
    - [Secured]        src/components/Secured.tsx    (access guard)
    - [CompanyContext] contexts/CompanyContext.tsx   (tenant selector)

    JavaScript strings are modelled by [string]; a character stands for
    one code unit below 256.  React state, [localStorage] and the remote
    collaborators are threaded explicitly through a small state monad
    whose state also records the observable effects (remote calls,
    storage accesses, console output) in the order they happen.  An
    asynchronous function is modelled as running to completion against
    the answers its awaited calls receive. *)

From stdpp Require Import base option list strings gmap.
From Stdlib Require Import ZArith Ascii String.

Open Scope string_scope.

(** ** JavaScript built-ins used by the sources *)

Module Js.

(** Truthiness of a string value: only the empty string is falsy. *)
Definition truthy (s : string) : bool := negb (String.eqb s "").

(** [Array.prototype.includes] on an array of strings. *)
Definition includes (xs : list string) (x : string) : bool :=
  existsb (String.eqb x) xs.

(** [Array.prototype.some] / [every] / [find]. *)
Definition some {A} (p : A -> bool) (xs : list A) : bool := existsb p xs.
Definition every {A} (p : A -> bool) (xs : list A) : bool := forallb p xs.
Definition find {A} (p : A -> bool) (xs : list A) : option A := List.find p xs.

(** [s.startsWith(p)] *)
Definition startsWith (s p : string) : bool := String.prefix p s.

(** [s.endsWith(suffix)] *)
Definition endsWith (s suffix : string) : bool :=
  let n := String.length s in
  let m := String.length suffix in
  (m <=? n)%nat && String.eqb (String.substring (n - m) m s) suffix.

(** [s.slice(0, -k)]: a negative end index counts from the end of the
    string and is clamped at 0. *)
Definition slice_to_minus (s : string) (k : nat) : string :=
  String.substring 0 (String.length s - k) s.

(** White space and line terminators of [String.prototype.trim], for
    code units below 256: TAB, LF, VT, FF, CR, SP and NBSP. *)
Definition isWhiteSpace (c : ascii) : bool :=
  let n := nat_of_ascii c in
  ((9 <=? n)%nat && (n <=? 13)%nat) || (n =? 32)%nat || (n =? 160)%nat.

Fixpoint trimStart (s : string) : string :=
  match s with
  | EmptyString => EmptyString
  | String c s' => if isWhiteSpace c then trimStart s' else s
  end.

Fixpoint trimEnd (s : string) : string :=
  match s with
  | EmptyString => EmptyString
  | String c s' =>
      match trimEnd s' with
      | EmptyString => if isWhiteSpace c then EmptyString else String c EmptyString
      | t => String c t
      end
  end.

(** [s.trim()] *)
Definition trim (s : string) : string := trimEnd (trimStart s).

(** A number that may be [NaN]: [None].  The numbers met here are
    integers (times in milliseconds and their differences). *)
Definition number : Type := option Z.

(** [a - b]: [NaN] as soon as one side is. *)
Definition minus (a b : number) : number :=
  match a, b with
  | Some x, Some y => Some (x - y)%Z
  | _, _ => None
  end.

(** What [Array.prototype.sort] makes of a result of its [comparefn]:
    a [NaN] counts as [+0]. *)
Definition sortCompare (v : number) : Z :=
  match v with
  | Some z => z
  | None => 0%Z
  end.

(** [x] put into a list: before the first element that [comparefn] does
    not place before it. *)
Fixpoint insert {A : Type} (comparefn : A -> A -> number) (x : A) (xs : list A)
    : list A :=
  match xs with
  | [] => [x]
  | y :: ys =>
      if (sortCompare (comparefn x y) <=? 0)%Z then x :: y :: ys
      else y :: insert comparefn x ys
  end.

(** [[...xs].sort(comparefn)].  The sort is stable.  Where [comparefn]
    orders the elements consistently (as a difference of numbers none
    of which is [NaN] does) this fixes the result.  Where it does not,
    as with a [NaN] among numbers, the language leaves the order to the
    engine; the insertion from the right below then gives one such
    order, in which an element that compares as [NaN] with all others
    stays in front of those that followed it. *)
Definition sort {A : Type} (comparefn : A -> A -> number) (xs : list A) : list A :=
  foldr (insert comparefn) [] xs.

(** What a request hands over as [response.data] where a value of [T]
    is expected: that value, [null] (the JSON text null), or the empty
    string of an empty body. *)
Inductive Body (T : Type) : Type :=
| Data (t : T)
| NullData
| NoData.
Arguments Data {T} t.
Arguments NullData {T}.
Arguments NoData {T}.

(** A settled promise, as seen by the [await] that consumes it: the
    value it fulfilled with, or the fact that it rejected (the [catch]
    blocks modelled here only look at the error to decide what to
    log, which [E] records). *)
Inductive Settled (E A : Type) : Type :=
| Fulfilled (a : A)
| Rejected (e : E).
Arguments Fulfilled {E A} a.
Arguments Rejected {E A} e.

End Js.

(** ** src/sidebar/sidebarRules.ts *)

Module SidebarRules.

(** helper function to check if permission matches; supports wildcards
    like "blog.*" *)
Definition matchPermission (userPermissions : list string)
    (requiredPermission : string) : bool :=
  (* exact match *)
  if Js.includes userPermissions requiredPermission then true
  (* wildcard match *)
  else if Js.endsWith requiredPermission ".*" then
    let prefix := Js.slice_to_minus requiredPermission 2 in
    Js.some (fun perm => Js.startsWith perm prefix) userPermissions
  else false.

(** The [user] member of a rule context. *)
Record ContextUser : Type := {
  user_id : string;
  user_permissions : list string;
  user_role : option string
}.

(** rule context type - what rules evaluate against *)
Record RuleContext : Type := {
  user : option ContextUser;
  permissions : list string;
  features : option (list string)
}.

(** rule type definition *)
Record Rule : Type := { evaluate : RuleContext -> bool }.

(** AND rule - all rules must pass.  The rest parameter is always an
    array, so the [Array.isArray] test never fails. *)
Definition and (rules : list Rule) : Rule :=
  {| evaluate := fun context => Js.every (fun rule => evaluate rule context) rules |}.

(** OR rule - any rule must pass *)
Definition or (rules : list Rule) : Rule :=
  {| evaluate := fun context => Js.some (fun rule => evaluate rule context) rules |}.

(** hasPermission rule - checks if user has required permission *)
Definition hasPermission (permission : string) : Rule :=
  {| evaluate := fun context => matchPermission (permissions context) permission |}.

(** hasFeature rule - checks if feature is enabled *)
Definition hasFeature (feature : string) : Rule :=
  {| evaluate := fun context =>
       match features context with
       | None => false
       | Some fs => Js.includes fs feature
       end |}.

(** isAuthenticated rule - checks if user is logged in *)
Definition isAuthenticated : Rule :=
  {| evaluate := fun context =>
       match user context with Some _ => true | None => false end |}.

(** hasRole rule - checks if user has a specific role *)
Definition hasRole (role : string) : Rule :=
  {| evaluate := fun context =>
       match user context with
       | None => false
       | Some u =>
           match user_role u with
           | Some r => String.eqb r role
           | None => false
           end
       end |}.

End SidebarRules.


(** ** A state monad for the providers

    A provider function runs against a world (its React state, the
    browser storage it touches and the log of effects so far) and
    returns the world it leaves behind. *)

Module Eff.

Definition M (W A : Type) : Type := W -> A * W.

Definition ret {W A} (a : A) : M W A := fun w => (a, w).

Definition bind {W A B} (c : M W A) (k : A -> M W B) : M W B :=
  fun w => let (a, w') := c w in k a w'.

Definition gets {W A} (f : W -> A) : M W A := fun w => (f w, w).

Definition modify {W} (f : W -> W) : M W unit := fun w => (tt, f w).

(** The world a computation leaves behind. *)
Definition exec {W A} (c : M W A) (w : W) : W := snd (c w).

End Eff.

Declare Scope eff_scope.
Delimit Scope eff_scope with eff.
Notation "'do' x <- c ; k" := (Eff.bind c (fun x => k))
  (at level 10, x name, c at level 100, k at level 200) : eff_scope.
Notation "'run' c ; k" := (Eff.bind c (fun _ => k))
  (at level 10, c at level 100, k at level 200) : eff_scope.

(** ** Data delivered by the backend *)

(** company interface from user response (minimal company info) *)
Module UserCompany.
Record t : Type := {
  id : string;
  name : string;
  logo_url : option string
}.
End UserCompany.

(** user interface matching the GET /auth/me response *)
Module User.
Record t : Type := {
  id : string;
  email : string;
  name : string;
  role : string;
  status : string;
  permissions : list string;
  masterId : option string;
  companies : list UserCompany.t
}.
End User.

(** company interface of services/company/companyService.ts; optional and
    nullable members are [option]s, the free-form [settings] object is
    kept as its list of entries. *)
Module Company.
Record t : Type := {
  id : string;
  master_id : string;
  name : string;
  slug : string;
  domain : option string;
  description : option string;
  logo_url : option string;
  theme : option string;
  status : option string;
  settings : option (list (string * string));
  created_at : string;
  updated_at : string
}.
End Company.

(** Constants of services/http/url.ts and routes/paths.ts. *)
Module urls.
Definition auth_me : string := "/auth/me".
Definition auth_signIn : string := "/auth/sign-in".
Definition auth_signOut : string := "/auth/sign-out".
End urls.

Module paths.
Definition login_index : string := "/login".
Definition dashboard_index : string := "/".
Definition dashboard_overview : string := "/dashboard".
Definition posts_list : string := "/posts/list".
Definition users_list : string := "/users/list".
Definition users_create : string := "/users/create".
Definition settings_profile : string := "/settings/profile".
Definition settings_account : string := "/settings/account".
Definition companies_list : string := "/companies".
Definition companies_overview : string := "/companies/overview".
Definition companies_members : string := "/companies/members".
Definition categories_list : string := "/categories".
Definition tags_list : string := "/tags".
End paths.

(** ** contexts/AuthContext.tsx *)

Module AuthContext.

(** What the provider does to the outside world. *)
Inductive Effect : Type :=
| HttpGet (url : string)
| HttpPost (url : string)
| ConsoleError (msg : string)
| ConsoleWarn (msg : string).

(** What a rejected call threw: an axios error, with the status of its
    response and the [message] and [error] members of the response body
    where present, and its own message; or something else. *)
Inductive Thrown : Type :=
| AxiosError (status : option nat) (data_message data_error : option string)
    (message : string)
| OtherError.

(** The backend as one call sees it: how each request settles.  A
    success need not carry the body the call expects.  For GET /auth/me
    [verifySession] asks whether there is a body, and [None] is one it
    takes for absent.  The bodies of POST /auth/sign-in ([Js.Data u] is
    the body [{ user: u }]) and of GET /user/:id are used as they come:
    a user, [null], or empty. *)
Record ApiClient : Type := {
  get_me : Js.Settled Thrown (option User.t);
  post_signIn : Js.Settled Thrown (Js.Body User.t);
  post_signOut : Js.Settled Thrown unit;
  get_user : string -> Js.Settled Thrown (Js.Body User.t)
}.

(** [useState] cells of the provider, and the effects so far. *)
Record World : Type := {
  user : option User.t;
  isLoading : bool;
  log : list Effect
}.

(** start as true - we need to verify session on app load *)
Definition initial : World :=
  {| user := None; isLoading := true; log := [] |}.

Definition setUser (u : option User.t) : Eff.M World unit :=
  Eff.modify (fun w => {| user := u; isLoading := isLoading w; log := log w |}).

Definition setIsLoading (b : bool) : Eff.M World unit :=
  Eff.modify (fun w => {| user := user w; isLoading := b; log := log w |}).

Definition emit (e : Effect) : Eff.M World unit :=
  Eff.modify (fun w => {| user := user w; isLoading := isLoading w; log := log w ++ [e] |}).

(** verify session - checks if user is still authenticated via session
    cookie; the [finally] block runs on both branches of the [try]. *)
Definition verifySession (apiClient : ApiClient) : Eff.M World unit :=
  (do u <- Eff.gets user;
   match u with
   | Some _ =>
       (* don't verify if we already have a user *)
       setIsLoading false
   | None =>
       run emit (HttpGet urls.auth_me);
       run match get_me apiClient with
           | Js.Fulfilled data =>
               match data with
               | Some d =>
                   if Js.truthy (User.id d) then setUser (Some d) else setUser None
               | None => setUser None
               end
           | Js.Rejected error =>
               run match error with
                   | AxiosError status _ _ _ =>
                       (* only log if it's not a 401 *)
                       match status with
                       | Some 401%nat => Eff.ret tt
                       | _ => emit (ConsoleError "Session verification failed:")
                       end
                   | OtherError => Eff.ret tt
                   end;
               setUser None
           end;
       (* finally *)
       setIsLoading false
   end)%eff.

(** The mount effect of the provider (empty dependency array). *)
Definition onMount (pathname : string) (apiClient : ApiClient) : Eff.M World unit :=
  let isLoginPage := String.eqb pathname "/login" in
  if isLoginPage then setIsLoading false else verifySession apiClient.

(** logout function - calls backend to clear session cookie *)
Definition logout (apiClient : ApiClient) : Eff.M World unit :=
  (run emit (HttpPost urls.auth_signOut);
   run match post_signOut apiClient with
       | Js.Fulfilled _ => Eff.ret tt
       | Js.Rejected _ =>
           (* even if logout fails, clear user data locally *)
           emit (ConsoleError "Logout error:")
       end;
   (* finally: clear user data from memory *)
   setUser None)%eff.

(** [a || b] on values that are absent or strings. *)
Definition orElse (a b : option string) : option string :=
  match a with
  | Some s => if Js.truthy s then a else b
  | None => b
  end.

(** How a call leaves the provider.  [login] and [refreshUser] hand to
    [setUser] what the success body gave them without looking at it, and
    an empty body then leaves in the [user] cell a value that is neither
    [null] nor a user ([undefined], or the empty string).  [World] has
    no such state: [EndedUntyped a w] is a call that returned [a] and
    left the provider as in [w] but for that cell. *)
Inductive Outcome (A : Type) : Type :=
| Ended (a : A) (w : World)
| EndedUntyped (a : A) (w : World).
Arguments Ended {A} a w.
Arguments EndedUntyped {A} a w.

Definition ended {A : Type} (c : Eff.M World A) (w : World) : Outcome A :=
  let (a, w') := c w in Ended a w'.

Definition returned {A : Type} (o : Outcome A) : A :=
  match o with
  | Ended a _ | EndedUntyped a _ => a
  end.

(** The effects up to the end of the call. *)
Definition effects {A : Type} (o : Outcome A) : list Effect :=
  match o with
  | Ended _ w | EndedUntyped _ w => log w
  end.

(** login function - returns true on success, throws an error with a
    message on failure.  [const { user: userData } = response.data]
    throws on a [null] body, inside the [try]; on an empty body it
    leaves [userData] undefined. *)
Definition login (apiClient : ApiClient) (w : World)
    : Outcome (Js.Settled string bool) :=
  let requested := Eff.exec (emit (HttpPost urls.auth_signIn)) w in
  let failed (error : Thrown) :=
    ended
      (run emit (ConsoleError "Login error:");
       match error with
       | AxiosError _ data_message data_error message =>
           let errorMessage :=
             orElse (orElse data_message data_error) (Some message) in
           Eff.ret (Js.Rejected
                      (match orElse errorMessage (Some "Invalid email or password") with
                       | Some m => m
                       | None => ""
                       end))
       | OtherError =>
           Eff.ret (Js.Rejected "An error occurred. Please try again.")
       end)%eff requested in
  match post_signIn apiClient with
  | Js.Fulfilled (Js.Data userData) =>
      (* store user data in state (memory only) *)
      ended (run setUser (Some userData); Eff.ret (Js.Fulfilled true))%eff requested
  | Js.Fulfilled Js.NoData => EndedUntyped (Js.Fulfilled true) requested
  | Js.Fulfilled Js.NullData => failed OtherError
  | Js.Rejected error => failed error
  end.

(** refresh user data from API.  [setUser(response.data)] stores a
    [null] body as it stores a user, and an empty body too. *)
Definition refreshUser (apiClient : ApiClient) (w : World) : Outcome unit :=
  let warned := ended (emit (ConsoleWarn "Cannot refresh user: no user ID available")) w in
  match user w with
  | None => warned
  | Some current =>
      if negb (Js.truthy (User.id current)) then warned
      else
        let requested := Eff.exec (emit (HttpGet ("/user/" +:+ User.id current))) w in
        match get_user apiClient (User.id current) with
        | Js.Fulfilled (Js.Data updatedUser) => ended (setUser (Some updatedUser)) requested
        | Js.Fulfilled Js.NullData => ended (setUser None) requested
        | Js.Fulfilled Js.NoData => EndedUntyped tt requested
        | Js.Rejected _ =>
            ended (emit (ConsoleError "Failed to refresh user data:")) requested
        end
  end.

(** update user data in context *)
Definition updateUser (userData : User.t) : Eff.M World unit :=
  setUser (Some userData).

(** One call of a function of the context value, against the backend
    as that call meets it. *)
Inductive Call : Type :=
| CallVerifySession
| CallLogin
| CallLogout
| CallRefreshUser
| CallUpdateUser (userData : User.t).

Definition perform (call : Call) (apiClient : ApiClient) (w : World) : Outcome unit :=
  match call with
  | CallVerifySession => ended (verifySession apiClient) w
  | CallLogin =>
      match login apiClient w with
      | Ended _ w' => Ended tt w'
      | EndedUntyped _ w' => EndedUntyped tt w'
      end
  | CallLogout => ended (logout apiClient) w
  | CallRefreshUser => refreshUser apiClient w
  | CallUpdateUser userData => ended (updateUser userData) w
  end.

(** Whether an effect is a request to the backend. *)
Definition isRequest (e : Effect) : bool :=
  match e with
  | HttpGet _ | HttpPost _ => true
  | ConsoleError _ | ConsoleWarn _ => false
  end.

(** The part of the context value that consumers read. *)
Record AuthContextType : Type := {
  ctx_user : option User.t;
  ctx_isAuthenticated : bool;
  ctx_isLoading : bool
}.

Definition useAuth (w : World) : AuthContextType :=
  {| ctx_user := user w;
     ctx_isAuthenticated := match user w with Some _ => true | None => false end;
     ctx_isLoading := isLoading w |}.


(** The session states of the specification, read off the provider's
    state the way its consumers do: the loading flag first, then the
    identity. *)
Inductive SessionState : Type :=
| Verifying
| Authenticated (identity : User.t)
| Anonymous.

Definition sessionState (w : World) : SessionState :=
  if isLoading w then Verifying
  else match user w with
       | Some u => Authenticated u
       | None => Anonymous
       end.

End AuthContext.

(** ** src/components/Secured.tsx *)

Module Secured.

Record SecuredProps : Type := {
  authenticated : option bool;
  permissions : option (list string);
  features : option (list string);
  path : string
}.

(** What the component renders. *)
Inductive Element : Type :=
| LoaderScreen
| Navigate (to : string)
| NoPermissionMessage
| Children.

(** The decisions of the access guard are these renderings. *)
Definition Pending : Element := LoaderScreen.
Definition RedirectToLogin : Element := Navigate paths.login_index.
Definition RedirectToHome : Element := Navigate paths.dashboard_index.
Definition Forbidden : Element := NoPermissionMessage.
Definition Allow : Element := Children.

Definition Secured (props : SecuredProps) (auth : AuthContext.AuthContextType) : Element :=
  let isAuthenticated := AuthContext.ctx_isAuthenticated auth in
  let isLoading := AuthContext.ctx_isLoading auth in
  let user := AuthContext.ctx_user auth in
  (* wait for session verification to complete *)
  if isLoading then LoaderScreen
  (* check authentication requirement *)
  else if bool_decide (authenticated props = Some true) && negb isAuthenticated
  then Navigate paths.login_index
  (* route requires no auth but user is logged in *)
  else if bool_decide (authenticated props = Some false) && isAuthenticated && negb isLoading
  then Navigate paths.dashboard_index
  else
    (* check permissions if required *)
    let denied :=
      match permissions props, user with
      | Some ps, Some u =>
          if (0 <? List.length ps)%nat then
            let hasPermission :=
              Js.some (fun permission => Js.includes (User.permissions u) permission) ps in
            negb hasPermission
          else false
      | _, _ => false
      end in
    if denied then NoPermissionMessage
    (* the feature check is an empty block *)
    else Children.

End Secured.

(** ** contexts/CompanyContext.tsx *)

Module CompanyContext.

(** localStorage key for storing selected company ID *)
Definition SELECTED_COMPANY_STORAGE_KEY : string := "csid".

(** What the provider does to the outside world. *)
Inductive Effect : Type :=
| CallList
| CallGet (id : string)
| GetItem (key : string)
| SetItem (key value : string)
| RemoveItem (key : string)
| ConsoleError (msg : string).

(** [companyService] as one run of the provider sees it. *)
Record CompanyService : Type := {
  list_ : Js.Settled unit (list Company.t);
  get : string -> Js.Settled unit Company.t
}.

(** [useState] cells of the provider, the browser's [localStorage] and
    the effects so far. *)
Record World : Type := {
  companies : list Company.t;
  selectedCompany : option Company.t;
  isLoading : bool;
  localStorage : gmap string string;
  log : list Effect
}.

Definition setCompanies (cs : list Company.t) : Eff.M World unit :=
  Eff.modify (fun w =>
    {| companies := cs; selectedCompany := selectedCompany w;
       isLoading := isLoading w; localStorage := localStorage w; log := log w |}).

Definition setSelectedCompanyState (c : option Company.t) : Eff.M World unit :=
  Eff.modify (fun w =>
    {| companies := companies w; selectedCompany := c;
       isLoading := isLoading w; localStorage := localStorage w; log := log w |}).

Definition setIsLoading (b : bool) : Eff.M World unit :=
  Eff.modify (fun w =>
    {| companies := companies w; selectedCompany := selectedCompany w;
       isLoading := b; localStorage := localStorage w; log := log w |}).

Definition emit (e : Effect) : Eff.M World unit :=
  Eff.modify (fun w =>
    {| companies := companies w; selectedCompany := selectedCompany w;
       isLoading := isLoading w; localStorage := localStorage w;
       log := log w ++ [e] |}).

Definition withStorage (f : gmap string string -> gmap string string)
    : Eff.M World unit :=
  Eff.modify (fun w =>
    {| companies := companies w; selectedCompany := selectedCompany w;
       isLoading := isLoading w; localStorage := f (localStorage w);
       log := log w |}).

(** [localStorage.getItem(key)] *)
Definition getItem (key : string) : Eff.M World (option string) :=
  (run emit (GetItem key);
   Eff.gets (fun w => localStorage w !! key))%eff.

(** [localStorage.setItem(key, value)] *)
Definition setItem (key value : string) : Eff.M World unit :=
  (run emit (SetItem key value);
   withStorage (insert key value))%eff.

(** [localStorage.removeItem(key)] *)
Definition removeItem (key : string) : Eff.M World unit :=
  (run emit (RemoveItem key);
   withStorage (delete key))%eff.

(** fallback: create minimal company object from user.companies[0] *)
Definition fallbackCompany (user : User.t) (userCompany : UserCompany.t) : Company.t :=
  {| Company.id := UserCompany.id userCompany;
     Company.name := UserCompany.name userCompany;
     Company.logo_url :=
       match UserCompany.logo_url userCompany with
       | Some l => if Js.truthy l then Some l else None
       | None => None
       end;
     Company.master_id :=
       match User.masterId user with
       | Some m => if Js.truthy m then m else ""
       | None => ""
       end;
     Company.slug := "";
     Company.domain := None;
     Company.description := None;
     Company.theme := None;
     Company.status := None;
     Company.settings := None;
     Company.created_at := "";
     Company.updated_at := "" |}.

Section WithClock.

(** [new Date(s).getTime()]: the time of a stamp in milliseconds, or
    [NaN] for a stamp that is no date, the empty one included. *)
Variable getTime : string -> Js.number.

(** [(a, b) => new Date(a.created_at).getTime() - new Date(b.created_at).getTime()] *)
Definition byCreatedAt (a b : Company.t) : Js.number :=
  Js.minus (getTime (Company.created_at a)) (getTime (Company.created_at b)).

(** [[...cs].sort(byCreatedAt)] *)
Definition sortByCreatedAt (cs : list Company.t) : list Company.t :=
  Js.sort byCreatedAt cs.

(** fetch companies and determine default company based on user role.
    [user] and [selectedCompany] are the values the closure captured.
    Every [return] inside the [try] still runs the [finally] block.  The
    outer [catch] is entered only when [companyService.list()] rejects,
    where [user.companies] is known to be non-empty. *)
Definition fetchCompanies (companyService : CompanyService)
    (user : option User.t) (selectedCompany : option Company.t)
    : Eff.M World unit :=
  match user with
  | None => setIsLoading false
  | Some user =>
    (run setIsLoading true;
     run match User.companies user with
         | [] =>
             (* no companies in user response *)
             run setCompanies [];
             run setSelectedCompanyState None;
             setIsLoading false
         | userCompany :: _ =>
           let defaultCompanyId := UserCompany.id userCompany in
           if negb (Js.truthy defaultCompanyId) then
             run setCompanies [];
             run setSelectedCompanyState None;
             setIsLoading false
           else if String.eqb (User.role user) "team_member" then
             (* fetch only their assigned company *)
             run emit (CallGet defaultCompanyId);
             match get companyService defaultCompanyId with
             | Js.Fulfilled companyDetails =>
                 run setCompanies [companyDetails];
                 run setSelectedCompanyState (Some companyDetails);
                 setItem SELECTED_COMPANY_STORAGE_KEY (Company.id companyDetails)
             | Js.Rejected _ =>
                 run emit (ConsoleError "Failed to fetch company details:");
                 let fallback := fallbackCompany user userCompany in
                 run setCompanies [fallback];
                 run setSelectedCompanyState (Some fallback);
                 setItem SELECTED_COMPANY_STORAGE_KEY (Company.id fallback)
             end
           else
             (* for master and owner: fetch full companies list *)
             run emit CallList;
             match list_ companyService with
             | Js.Rejected _ =>
                 (* outer catch *)
                 run emit (ConsoleError "Failed to fetch companies:");
                 let fallback := fallbackCompany user userCompany in
                 run setCompanies [fallback];
                 setSelectedCompanyState (Some fallback)
             | Js.Fulfilled fetchedCompanies =>
                 run setCompanies fetchedCompanies;
                 do savedCompanyId <- getItem SELECTED_COMPANY_STORAGE_KEY;
                 let byId (i : string) :=
                   Js.find (fun c => String.eqb (Company.id c) i) fetchedCompanies in
                 (* default from user.companies[0], then first by created_at *)
                 let useDefault : Eff.M World unit :=
                   let defaultCompany : option Company.t := None in
                   let defaultCompany :=
                     match defaultCompany with
                     | None =>
                         if Js.truthy defaultCompanyId then byId defaultCompanyId
                         else defaultCompany
                     | Some _ => defaultCompany
                     end in
                   let defaultCompany :=
                     match defaultCompany with
                     | None =>
                         if (0 <? List.length fetchedCompanies)%nat
                         then head (sortByCreatedAt fetchedCompanies)
                         else defaultCompany
                     | Some _ => defaultCompany
                     end in
                   match defaultCompany with
                   | Some d =>
                       run setSelectedCompanyState (Some d);
                       setItem SELECTED_COMPANY_STORAGE_KEY (Company.id d)
                   | None => Eff.ret tt
                   end in
                 (* check localStorage first *)
                 let restoreSaved : Eff.M World unit :=
                   match savedCompanyId with
                   | Some saved =>
                       if Js.truthy saved && negb (String.eqb (Js.trim saved) "") then
                         let trimmedSavedId := Js.trim saved in
                         match byId trimmedSavedId with
                         | Some savedCompany =>
                             run setSelectedCompanyState (Some savedCompany);
                             run setItem SELECTED_COMPANY_STORAGE_KEY (Company.id savedCompany);
                             setIsLoading false
                         | None =>
                             (* remove invalid entry so fallback logic can run *)
                             run removeItem SELECTED_COMPANY_STORAGE_KEY;
                             useDefault
                         end
                       else useDefault
                   | None => useDefault
                   end in
                 (* keep the current selection if it is still in the list *)
                 match selectedCompany with
                 | Some current =>
                     match byId (Company.id current) with
                     | Some _ =>
                         run setItem SELECTED_COMPANY_STORAGE_KEY (Company.id current);
                         setIsLoading false
                     | None => restoreSaved
                     end
                 | None => restoreSaved
                 end
             end
         end;
     (* finally *)
     setIsLoading false)%eff
  end.

(** The effect that runs when [user] or [authLoading] changes. *)
Definition onUserChange (companyService : CompanyService)
    (user : option User.t) (authLoading : bool) : Eff.M World unit :=
  if authLoading then Eff.ret tt
  else match user with
       | None =>
           (* user is actually logged out - clear localStorage *)
           (run removeItem SELECTED_COMPANY_STORAGE_KEY;
            run setCompanies [];
            run setSelectedCompanyState None;
            setIsLoading false)%eff
       | Some _ =>
           (do current <- Eff.gets selectedCompany;
            fetchCompanies companyService user current)%eff
       end.

(** refresh companies list (useful after creating/deleting companies) *)
Definition refreshCompanies (companyService : CompanyService)
    (user : option User.t) : Eff.M World unit :=
  (do current <- Eff.gets selectedCompany;
   fetchCompanies companyService user current)%eff.

End WithClock.

(** set selected company manually (used when user selects from dropdown) *)
Definition setSelectedCompany (company : option Company.t) : Eff.M World unit :=
  (run setSelectedCompanyState company;
   match company with
   | Some c => setItem SELECTED_COMPANY_STORAGE_KEY (Company.id c)
   | None => removeItem SELECTED_COMPANY_STORAGE_KEY
   end)%eff.

End CompanyContext.

(** ** src/sidebar/items.tsx *)

Module SidebarItems.

(** sidebar item type definition; an absent [children] member is the
    empty list, an icon is known by its name. *)
Inductive SidebarItem : Type := Item {
  href : string;
  icon : string;
  title : string;
  rule : option SidebarRules.Rule;
  children : list SidebarItem;
  badge : option string;
  badgeColor : option string
}.

Definition leaf (h i t : string) (r : SidebarRules.Rule) : SidebarItem :=
  {| href := h; icon := i; title := t; rule := Some r; children := [];
     badge := None; badgeColor := None |}.

Definition group (h i t : string) (r : SidebarRules.Rule)
    (cs : list SidebarItem) : SidebarItem :=
  {| href := h; icon := i; title := t; rule := Some r; children := cs;
     badge := None; badgeColor := None |}.

(** profile section *)
Definition profile : list SidebarItem :=
  [ leaf paths.settings_profile "Settings" "Profile Settings"
      SidebarRules.isAuthenticated;
    leaf paths.users_list "Users" "Users" (SidebarRules.hasRole "owner");
    leaf paths.companies_list "Building2" "Companies" (SidebarRules.hasRole "owner") ].

(** main features section *)
Definition features : list SidebarItem :=
  [ leaf paths.dashboard_index "Home" "Dashboard"
      (SidebarRules.hasPermission "company.view");
    group paths.posts_list "FileText" "Posts" (SidebarRules.hasPermission "blog.view")
      [ leaf paths.posts_list "FileText" "All Posts"
          (SidebarRules.hasPermission "blog.view");
        leaf paths.categories_list "List" "Categories"
          (SidebarRules.hasPermission "blog.view");
        leaf paths.tags_list "List" "Tags" (SidebarRules.hasPermission "blog.view") ];
    group paths.users_list "Users" "Users"
      (SidebarRules.and [SidebarRules.hasPermission "user.read"])
      [ leaf paths.users_list "Users" "All Users"
          (SidebarRules.hasPermission "user.read");
        leaf paths.users_create "Users" "Create User"
          (SidebarRules.hasPermission "user.create") ] ].

(** account section *)
Definition account : list SidebarItem :=
  [ group paths.companies_overview "Building2" "Company"
      (SidebarRules.hasPermission "company.view")
      [ leaf paths.companies_overview "List" "Overview"
          (SidebarRules.hasPermission "company.view");
        leaf paths.companies_members "Users" "Members"
          (SidebarRules.hasPermission "company.view") ];
    leaf paths.settings_account "Settings" "Account Settings"
      (SidebarRules.or [SidebarRules.hasPermission "account.read";
                        SidebarRules.hasPermission "account.write"]) ].

Record NavSection : Type := { section_title : string; pages : list SidebarItem }.

(** export organized sidebar items *)
Definition navItems : list NavSection :=
  [ {| section_title := "Profile"; pages := profile |};
    {| section_title := "Features"; pages := features |};
    {| section_title := "Account"; pages := account |} ].

(** An item together with everything below it, and all items of the
    menu. *)
Fixpoint subitems (item : SidebarItem) : list SidebarItem :=
  item ::
  (fix below (cs : list SidebarItem) : list SidebarItem :=
     match cs with
     | [] => []
     | c :: rest => (subitems c ++ below rest)%list
     end) (children item).

Definition allItems : list SidebarItem :=
  flat_map (fun section => flat_map subitems (pages section)) navItems.

End SidebarItems.

(** ** components/Sidebar.tsx *)

Module Sidebar.

(** What [renderItem] produces, without the styling: a collapsible
    group with its open state and the entries shown under it, or a
    link. *)
Inductive Rendered : Type :=
| GroupButton (href title : string) (level : nat) (isOpen childActive : bool)
    (shown : list Rendered)
| LinkTo (href title : string) (level : nat) (selfActive : bool).

(** The entries a rendering shows, by target and title, at all levels. *)
Fixpoint entries (r : Rendered) : list (string * string) :=
  match r with
  | GroupButton href title _ _ _ shown =>
      (href, title) ::
      (fix below (rs : list Rendered) : list (string * string) :=
         match rs with
         | [] => []
         | r' :: rest => (entries r' ++ below rest)%list
         end) shown
  | LinkTo href title _ _ => [(href, title)]
  end.

(** The open state of a rendered group. *)
Definition shownOpen (r : option Rendered) : option bool :=
  match r with
  | Some (GroupButton _ _ _ isOpen _ _) => Some isOpen
  | _ => None
  end.

(** toggle open/closed state for items with children: [!prev[key]],
    where a missing entry reads as [undefined]. *)
Definition toggleItem (key : string) (prev : gmap string bool) : gmap string bool :=
  <[key := negb (match prev !! key with Some b => b | None => false end)]> prev.

Section WithProps.

(** The [user] prop, [location.pathname] and the [openItems] state. *)
Variable user : option User.t.
Variable pathname : string.
Variable openItems : gmap string bool.

(** evaluate if sidebar item should be visible *)
Definition isVisible (item : SidebarItems.SidebarItem) : bool :=
  match SidebarItems.rule item with
  | None => true (* no rule means always visible *)
  | Some r =>
      match user with
      | None => false (* no user means not visible *)
      | Some u =>
          let context :=
            {| SidebarRules.user :=
                 Some {| SidebarRules.user_id := User.id u;
                         SidebarRules.user_permissions := User.permissions u;
                         SidebarRules.user_role := Some (User.role u) |};
               SidebarRules.permissions := User.permissions u;
               SidebarRules.features := Some [] |} in
          SidebarRules.evaluate r context
      end
  end.

(** check if route is active *)
Definition isActive (href : string) (hasChildren : bool) : bool :=
  if hasChildren then Js.startsWith pathname (href +:+ "/")
  else String.eqb pathname href.

(** render sidebar item (recursive for children); [None] is the [null]
    of a hidden item, which React leaves out. *)
Fixpoint renderItem (item : SidebarItems.SidebarItem) (level : nat)
    : option Rendered :=
  if negb (isVisible item) then None
  else
    let hasChildren := (0 <? List.length (SidebarItems.children item))%nat in
    let selfActive :=
      if hasChildren then false else isActive (SidebarItems.href item) false in
    let childActive :=
      hasChildren
      && Js.some (fun child => isActive (SidebarItems.href child) false)
           (SidebarItems.children item) in
    if hasChildren then
      let isOpen :=
        match openItems !! SidebarItems.href item with
        | Some b => b
        | None => childActive
        end in
      Some (GroupButton (SidebarItems.href item) (SidebarItems.title item) level
              isOpen childActive
              (if isOpen then
                 (fix renderAll (cs : list SidebarItems.SidebarItem) : list Rendered :=
                    match cs with
                    | [] => []
                    | child :: rest =>
                        match renderItem child (S level) with
                        | Some r => r :: renderAll rest
                        | None => renderAll rest
                        end
                    end) (SidebarItems.children item)
               else []))
    else
      Some (LinkTo (SidebarItems.href item) (SidebarItems.title item) level selfActive).

(** navigation menu: each section with the entries it shows *)
Definition navigation : list (string * list Rendered) :=
  map (fun section =>
         (SidebarItems.section_title section,
          omap (fun item => renderItem item 0) (SidebarItems.pages section)))
      SidebarItems.navItems.

End WithProps.

End Sidebar.

(** ** src/routes/index.tsx and routes/Routes.tsx *)

Module Routes.

Record RouteConfig : Type := {
  path : string;
  element : string;
  authenticated : option bool;
  permissions : option (list string);
  features : option (list string)
}.

Record RouteGroup : Type := { layout : string; children : list RouteConfig }.

Definition route (p e : string) (auth : bool) (perms : option (list string))
    : RouteConfig :=
  {| path := p; element := e; authenticated := Some auth; permissions := perms;
     features := None |}.

Definition loginRoute : RouteGroup :=
  {| layout := "AuthLayout";
     children := [ route paths.login_index "LoginPage" false None ] |}.

Definition dashboardRoute : RouteGroup :=
  {| layout := "DashboardLayout";
     children := [ route paths.dashboard_index "DashboardPage" true None;
                   route paths.dashboard_overview "DashboardPage" true None ] |}.

Definition postsRoutes : RouteGroup :=
  {| layout := "DashboardLayout";
     children := [ route paths.posts_list "PostsPage" true (Some ["blog.view"]) ] |}.

Definition usersRoutes : RouteGroup :=
  {| layout := "DashboardLayout";
     children := [ route paths.users_list "UsersPage" true None;
                   route paths.users_create "DashboardPage" true
                     (Some ["user.create"]) ] |}.

Definition settingsRoutes : RouteGroup :=
  {| layout := "DashboardLayout";
     children := [ route paths.settings_profile "ProfilePage" true None ] |}.

Definition companiesRoutes : RouteGroup :=
  {| layout := "DashboardLayout";
     children := [ route paths.companies_overview "CompanyOverviewPage" true
                     (Some ["company.view"]);
                   route paths.companies_members "CompanyMembersPage" true
                     (Some ["company.view"]);
                   route paths.companies_list "CompaniesPage" true None ] |}.

Definition categoriesRoutes : RouteGroup :=
  {| layout := "DashboardLayout";
     children := [ route paths.categories_list "CategoriesPage" true
                     (Some ["blog.view"]) ] |}.

Definition tagsRoutes : RouteGroup :=
  {| layout := "DashboardLayout";
     children := [ route paths.tags_list "TagsPage" true (Some ["blog.view"]) ] |}.

(** 404 route *)
Definition notFoundRoute : RouteGroup :=
  {| layout := "AuthLayout";
     children := [ route "*" "DashboardPage" false None ] |}.

(** export all routes in order (more specific routes first) *)
Definition routes : list RouteGroup :=
  [ dashboardRoute; postsRoutes; categoriesRoutes; tagsRoutes; usersRoutes;
    companiesRoutes; settingsRoutes; loginRoute; notFoundRoute ].

(** The props [AppRoutes] hands to the [Secured] wrapper of a route. *)
Definition securedProps (r : RouteConfig) : Secured.SecuredProps :=
  {| Secured.authenticated := authenticated r;
     Secured.permissions := permissions r;
     Secured.features := features r;
     Secured.path := path r |}.

(** Every configured route, in order. *)
Definition allRoutes : list RouteConfig :=
  List.concat (map children routes).

End Routes.

(** ** Rules as they can be written with the exported constructors *)

Module RuleSyntax.

Inductive Expr : Type :=
| And (rules : list Expr)
| Or (rules : list Expr)
| HasPermission (permission : string)
| HasFeature (feature : string)
| IsAuthenticated
| HasRole (role : string).

(** The rule object an expression stands for. *)
Fixpoint build (e : Expr) : SidebarRules.Rule :=
  match e with
  | And rules => SidebarRules.and (map build rules)
  | Or rules => SidebarRules.or (map build rules)
  | HasPermission permission => SidebarRules.hasPermission permission
  | HasFeature feature => SidebarRules.hasFeature feature
  | IsAuthenticated => SidebarRules.isAuthenticated
  | HasRole role => SidebarRules.hasRole role
  end.

End RuleSyntax.

(** ** Concrete data used in the examples below *)

Module Scenario.

Definition anonymousContext : SidebarRules.RuleContext :=
  {| SidebarRules.user := None;
     SidebarRules.permissions := [];
     SidebarRules.features := None |}.

Definition membership (i : string) : UserCompany.t :=
  {| UserCompany.id := i; UserCompany.name := "Company " +:+ i;
     UserCompany.logo_url := None |}.

Definition identity (r : string) (perms : list string)
    (memberships : list UserCompany.t) : User.t :=
  {| User.id := "u1"; User.email := "u1@example.com"; User.name := "User One";
     User.role := r; User.status := "active"; User.permissions := perms;
     User.masterId := None; User.companies := memberships |}.

Definition tenant (i createdAt : string) : Company.t :=
  {| Company.id := i; Company.master_id := "m1"; Company.name := "Company " +:+ i;
     Company.slug := i; Company.domain := None; Company.description := None;
     Company.logo_url := None; Company.theme := None; Company.status := None;
     Company.settings := None; Company.created_at := createdAt;
     Company.updated_at := createdAt |}.

(** A clock for the examples: the decimal digits of a stamp read as one
    number, so that "2024-01-01" comes before "2024-02-01". *)
Definition digitsOf (s : string) : Z :=
  fold_left
    (fun acc c =>
       let n := Z.of_nat (nat_of_ascii c) in
       if ((48 <=? n) && (n <=? 57))%Z then (10 * acc + (n - 48))%Z else acc)
    (list_ascii_of_string s) 0%Z.

(** The clock of the examples: a stamp with a decimal digit in it is a
    date, at the time its digits spell; a stamp without one, like the
    empty stamp, is none. *)
Definition parseStamp (s : string) : Js.number :=
  if existsb (fun c =>
                let n := Z.of_nat (nat_of_ascii c) in ((48 <=? n) && (n <=? 57))%Z)
       (list_ascii_of_string s)
  then Some (digitsOf s) else None.

(** The session after a completed verification or login. *)
Definition signedIn (u : User.t) : AuthContext.World :=
  {| AuthContext.user := Some u; AuthContext.isLoading := false;
     AuthContext.log := [] |}.

Definition signedOut : AuthContext.World :=
  {| AuthContext.user := None; AuthContext.isLoading := false;
     AuthContext.log := [] |}.

Definition route (auth : option bool) (perms : option (list string))
    : Secured.SecuredProps :=
  {| Secured.authenticated := auth; Secured.permissions := perms;
     Secured.features := None; Secured.path := "/posts/list" |}.

(** A backend on which every call fails without a response. *)
Definition networkError : AuthContext.Thrown :=
  AuthContext.AxiosError None None None "Network Error".

Definition offline : AuthContext.ApiClient :=
  {| AuthContext.get_me := Js.Rejected networkError;
     AuthContext.post_signIn := Js.Rejected networkError;
     AuthContext.post_signOut := Js.Rejected networkError;
     AuthContext.get_user := fun _ => Js.Rejected networkError |}.

(** A backend with a live session for [u]. *)
Definition serving (u : User.t) : AuthContext.ApiClient :=
  {| AuthContext.get_me := Js.Fulfilled (Some u);
     AuthContext.post_signIn := Js.Fulfilled (Js.Data u);
     AuthContext.post_signOut := Js.Fulfilled tt;
     AuthContext.get_user := fun _ => Js.Fulfilled (Js.Data u) |}.

(** The provider before anything was resolved, over a given storage. *)
Definition freshTab (storage : gmap string string) : CompanyContext.World :=
  {| CompanyContext.companies := []; CompanyContext.selectedCompany := None;
     CompanyContext.isLoading := true; CompanyContext.localStorage := storage;
     CompanyContext.log := [] |}.

(** A company service that lists the given tenants and serves each of
    them by id. *)
Definition listing (cs : list Company.t) : CompanyContext.CompanyService :=
  {| CompanyContext.list_ := Js.Fulfilled cs;
     CompanyContext.get := fun i =>
       match List.find (fun c => String.eqb (Company.id c) i) cs with
       | Some c => Js.Fulfilled c
       | None => Js.Rejected tt
       end |}.

(** The tenants of the fallback scenario. *)
Definition tenantA : Company.t := tenant "a" "2024-01-01".
Definition tenantB : Company.t := tenant "b" "2024-02-01".

End Scenario.

Module Examples.

(** The rule context of a signed-in master account. *)
Definition masterContext : SidebarRules.RuleContext :=
  {| SidebarRules.user :=
       Some {| SidebarRules.user_id := "u1";
               SidebarRules.user_permissions := [];
               SidebarRules.user_role := Some "master" |};
     SidebarRules.permissions := [];
     SidebarRules.features := None |}.


(** A company service no request to which succeeds. *)
Definition unreachable : CompanyContext.CompanyService :=
  {| CompanyContext.list_ := Js.Rejected tt;
     CompanyContext.get := fun _ => Js.Rejected tt |}.

End Examples.

(** * Properties *)

(** ** Strings and arrays *)

Lemma includes_elem_of (xs : list string) (x : string) :
  Js.includes xs x = true <-> x ∈ xs.
Proof.
  unfold Js.includes. rewrite existsb_exists. split.
  - intros (y & Hy & Heq). apply String.eqb_eq in Heq. subst y.
    by apply list_elem_of_In.
  - intros Hx. exists x. split; [by apply list_elem_of_In | apply String.eqb_refl].
Qed.

Lemma some_exists {A} (p : A -> bool) (xs : list A) :
  Js.some p xs = true <-> exists x, x ∈ xs /\ p x = true.
Proof.
  unfold Js.some. rewrite existsb_exists.
  split; intros (x & Hx & Hp); exists x; split; auto; by apply list_elem_of_In.
Qed.

Lemma every_forall {A} (p : A -> bool) (xs : list A) :
  Js.every p xs = true <-> forall x, x ∈ xs -> p x = true.
Proof.
  unfold Js.every. rewrite forallb_forall.
  split; intros H x Hx; apply H; by apply list_elem_of_In.
Qed.

Lemma prefix_of_substring (s : string) (n : nat) :
  String.prefix (String.substring 0 n s) s = true.
Proof.
  revert n. induction s as [|c s IH]; intros [|n]; simpl; auto.
  destruct (ascii_dec c c) as [_|Hne]; [apply IH | by destruct Hne].
Qed.

Lemma startsWith_own_slice (s : string) (k : nat) :
  Js.startsWith s (Js.slice_to_minus s k) = true.
Proof. apply prefix_of_substring. Qed.

(** ** Rule engine: permission matching *)

(** What [matchPermission] computes for a wildcard token: some held
    permission starts with the token minus its last two characters.  The
    dot of the suffix is cut off together with the star. *)
Lemma matchPermission_wildcard (P : list string) (T : string) :
  Js.endsWith T ".*" = true ->
  (SidebarRules.matchPermission P T = true <->
   exists p, p ∈ P /\ Js.startsWith p (Js.slice_to_minus T 2) = true).
Proof.
  intros Hend. unfold SidebarRules.matchPermission. rewrite Hend.
  destruct (Js.includes P T) eqn:Hinc.
  - split; [intros _ | done].
    exists T. split; [by apply includes_elem_of | apply startsWith_own_slice].
  - apply some_exists.
Qed.

Lemma matchPermission_exact (P : list string) (T : string) :
  Js.endsWith T ".*" = false ->
  (SidebarRules.matchPermission P T = true <-> T ∈ P).
Proof.
  intros Hend. unfold SidebarRules.matchPermission. rewrite Hend.
  rewrite <- includes_elem_of. by destruct (Js.includes P T).
Qed.

Lemma matchPermission_of_held (P : list string) (T : string) :
  T ∈ P -> SidebarRules.matchPermission P T = true.
Proof.
  intros H. unfold SidebarRules.matchPermission.
  apply includes_elem_of in H. by rewrite H.
Qed.

(** C1. The wildcard token "blog.*" is compared through the bare prefix
    "blog": it matches "blog.create", and it also matches
    "blogging.create", although no held permission there starts with
    "blog." (the prefix followed by a dot). *)
Theorem matchPermission_wildcard_drops_dot :
  SidebarRules.matchPermission ["blog.create"] "blog.*" = true /\
  Js.slice_to_minus "blog.*" 2 = "blog" /\
  SidebarRules.matchPermission ["blogging.create"] "blog.*" = true /\
  ~ (exists p, p ∈ ["blogging.create"] /\ Js.startsWith p ("blog" +:+ ".") = true).
Proof.
  repeat split; try reflexivity.
  intros (p & Hp & Hpre). apply list_elem_of_singleton in Hp. subst p.
  vm_compute in Hpre. discriminate.
Qed.

(** ** Rule engine: composites *)

(** C5, as stated, fails: the zero-ary composites are built without
    complaint and evaluate to a boolean, [and()] to true and [or()] to
    false. *)
Lemma zero_ary_composites_evaluate :
  SidebarRules.evaluate (SidebarRules.and []) Scenario.anonymousContext = true /\
  SidebarRules.evaluate (SidebarRules.or []) Scenario.anonymousContext = false.
Proof. split; reflexivity. Qed.

(** C5, amended. For every argument list, the empty one included, [and]
    evaluates true iff every child does and [or] evaluates true iff at
    least one child does. *)
Theorem and_or_semantics (rules : list SidebarRules.Rule)
    (context : SidebarRules.RuleContext) :
  (SidebarRules.evaluate (SidebarRules.and rules) context = true <->
   forall r, r ∈ rules -> SidebarRules.evaluate r context = true) /\
  (SidebarRules.evaluate (SidebarRules.or rules) context = true <->
   exists r, r ∈ rules /\ SidebarRules.evaluate r context = true).
Proof.
  split; simpl.
  - apply every_forall.
  - apply some_exists.
Qed.

(** ** Access guard *)

Lemma Secured_settled (props : Secured.SecuredProps) (w : AuthContext.World) :
  AuthContext.isLoading w = false ->
  Secured.Secured props (AuthContext.useAuth w) =
    if bool_decide (Secured.authenticated props = Some true)
       && negb (AuthContext.ctx_isAuthenticated (AuthContext.useAuth w))
    then Secured.RedirectToLogin
    else if bool_decide (Secured.authenticated props = Some false)
            && AuthContext.ctx_isAuthenticated (AuthContext.useAuth w)
    then Secured.RedirectToHome
    else match Secured.permissions props, AuthContext.user w with
         | Some (p :: ps), Some u =>
             if Js.some (fun t => Js.includes (User.permissions u) t) (p :: ps)
             then Secured.Allow else Secured.Forbidden
         | _, _ => Secured.Allow
         end.
Proof.
  intros Hl. unfold Secured.Secured, AuthContext.useAuth. simpl. rewrite Hl. simpl.
  rewrite andb_true_r.
  destruct (_ && negb _); [done|].
  destruct (_ && _); [done|].
  destruct (Secured.permissions props) as [[|p ps]|], (AuthContext.user w); simpl; try done.
  by destruct (_ || _).
Qed.

Lemma sessionState_Verifying (w : AuthContext.World) :
  AuthContext.sessionState w = AuthContext.Verifying <-> AuthContext.isLoading w = true.
Proof.
  unfold AuthContext.sessionState.
  destruct (AuthContext.isLoading w); [done|].
  by destruct (AuthContext.user w).
Qed.

Lemma sessionState_Anonymous (w : AuthContext.World) :
  AuthContext.sessionState w = AuthContext.Anonymous <->
  AuthContext.isLoading w = false /\ AuthContext.user w = None.
Proof.
  unfold AuthContext.sessionState.
  destruct (AuthContext.isLoading w), (AuthContext.user w);
    intuition congruence.
Qed.

Lemma sessionState_Authenticated (w : AuthContext.World) (u : User.t) :
  AuthContext.sessionState w = AuthContext.Authenticated u <->
  AuthContext.isLoading w = false /\ AuthContext.user w = Some u.
Proof.
  unfold AuthContext.sessionState.
  destruct (AuthContext.isLoading w), (AuthContext.user w);
    intuition congruence.
Qed.

Lemma Secured_loading (props : Secured.SecuredProps) (w : AuthContext.World) :
  AuthContext.isLoading w = true ->
  Secured.Secured props (AuthContext.useAuth w) = Secured.Pending.
Proof. intros Hl. unfold Secured.Secured. simpl. by rewrite Hl. Qed.

Lemma held_none_iff (held req : list string) :
  Js.some (fun t => Js.includes held t) req = false <->
  forall t, t ∈ req -> t ∉ held.
Proof.
  rewrite <- not_true_iff_false, some_exists. split.
  - intros Hno t Ht Hheld. apply Hno. exists t. by rewrite includes_elem_of.
  - intros Hall (t & Ht & Hinc). apply includes_elem_of in Hinc. by apply (Hall t).
Qed.

(** C3. The guard shows the loader exactly while the session is being
    verified, whatever the route requires.  Once verification has
    settled it decides by the first rule that applies, in the order
    login redirect, home redirect, permission refusal, access. *)
Theorem Secured_decision_order (props : Secured.SecuredProps) (w : AuthContext.World) :
  let decision := Secured.Secured props (AuthContext.useAuth w) in
  let loginRequired :=
    Secured.authenticated props = Some true /\ AuthContext.user w = None in
  let publicOnly :=
    Secured.authenticated props = Some false /\ AuthContext.user w <> None in
  let lacksPermission :=
    exists ps u, Secured.permissions props = Some ps /\ ps <> [] /\
                 AuthContext.user w = Some u /\
                 forall t, t ∈ ps -> t ∉ User.permissions u in
  (AuthContext.sessionState w = AuthContext.Verifying <-> decision = Secured.Pending) /\
  (AuthContext.sessionState w <> AuthContext.Verifying ->
     (loginRequired -> decision = Secured.RedirectToLogin) /\
     (~ loginRequired -> publicOnly -> decision = Secured.RedirectToHome) /\
     (~ loginRequired -> ~ publicOnly -> lacksPermission ->
        decision = Secured.Forbidden) /\
     (~ loginRequired -> ~ publicOnly -> ~ lacksPermission ->
        decision = Secured.Allow)).
Proof.
  intros decision loginRequired publicOnly lacksPermission.
  subst decision. rewrite sessionState_Verifying.
  destruct (AuthContext.isLoading w) eqn:Hl.
  { split; [|done]. split; [intros _; by apply Secured_loading | done]. }
  rewrite (Secured_settled _ _ Hl). unfold AuthContext.useAuth; simpl.
  assert (Hlogin :
    bool_decide (Secured.authenticated props = Some true)
      && negb (match AuthContext.user w with Some _ => true | None => false end) = true
    <-> loginRequired).
  { subst loginRequired. rewrite andb_true_iff, bool_decide_eq_true.
    destruct (AuthContext.user w); simpl; intuition congruence. }
  assert (Hpublic :
    bool_decide (Secured.authenticated props = Some false)
      && (match AuthContext.user w with Some _ => true | None => false end) = true
    <-> publicOnly).
  { subst publicOnly. rewrite andb_true_iff, bool_decide_eq_true.
    destruct (AuthContext.user w); simpl; intuition congruence. }
  assert (Hperm :
    match Secured.permissions props, AuthContext.user w with
    | Some (p :: ps), Some u =>
        if Js.some (fun t => Js.includes (User.permissions u) t) (p :: ps)
        then Secured.Allow else Secured.Forbidden
    | _, _ => Secured.Allow
    end = Secured.Forbidden <-> lacksPermission).
  { subst lacksPermission.
    destruct (Secured.permissions props) as [[|p ps]|], (AuthContext.user w) as [u|];
      try (split; [done | intros (? & ? & ? & ? & ? & ?); congruence]).
    destruct (Js.some _ (p :: ps)) eqn:Hsome.
    - split; [done|]. intros (ps' & u' & Hps & _ & Hu & Hnone).
      injection Hps as <-. injection Hu as <-.
      apply held_none_iff in Hnone. congruence.
    - split; [intros _ | done]. exists (p :: ps), u.
      repeat split; [done|]. by apply held_none_iff. }
  destruct (bool_decide _ && negb _).
  { split; [split; [intros [=] | done]|]. intros _.
    assert loginRequired by (by apply Hlogin). repeat split; tauto. }
  assert (~ loginRequired) as Hnl by (intros H; by apply Hlogin in H).
  destruct (bool_decide _ && _).
  { split; [split; [intros [=] | done]|]. intros _.
    assert publicOnly by (by apply Hpublic). repeat split; tauto. }
  assert (~ publicOnly) as Hnp by (intros H; by apply Hpublic in H).
  split.
  { split; [intros [=]|]. unfold Secured.Pending, Secured.Allow, Secured.Forbidden.
    destruct (Secured.permissions props) as [[|p ps]|], (AuthContext.user w);
      try done. by destruct (_ || _). }
  intros _. repeat split; try tauto.
  intros _ _ Hno.
  destruct (Secured.permissions props) as [[|p ps]|], (AuthContext.user w) as [u|];
    try reflexivity.
  simpl in Hperm. destruct (_ || _); [reflexivity|].
  exfalso. apply Hno, Hperm. reflexivity.
Qed.

Lemma Secured_decision_order_witness :
  Secured.Secured (Scenario.route (Some true) (Some ["blog.create"]))
    (AuthContext.useAuth (Scenario.signedIn (Scenario.identity "owner" ["blog.view"] [])))
  = Secured.Forbidden.
Proof.
  destruct (Secured_decision_order
              (Scenario.route (Some true) (Some ["blog.create"]))
              (Scenario.signedIn (Scenario.identity "owner" ["blog.view"] [])))
    as [_ Hsettled].
  destruct Hsettled as (_ & _ & Hforbidden & _); [discriminate|].
  apply Hforbidden.
  - intros [_ Habsent]. discriminate Habsent.
  - intros [Hpublic _]. discriminate Hpublic.
  - exists ["blog.create"], (Scenario.identity "owner" ["blog.view"] []).
    repeat split; [discriminate|].
    intros t Ht Hheld. simpl in Hheld.
    apply list_elem_of_singleton in Ht. apply list_elem_of_singleton in Hheld.
    subst t. discriminate Hheld.
Defined.

(** C2, as stated, fails: a route that requires "blog.*" is refused to an
    identity holding "blog.create", which the rule engine's matching
    accepts. *)
Lemma Secured_does_not_expand_wildcards :
  ~ (Secured.Secured (Scenario.route (Some true) (Some ["blog.*"]))
       (AuthContext.useAuth
          (Scenario.signedIn (Scenario.identity "owner" ["blog.create"] [])))
     = Secured.Forbidden
     <-> Js.some (fun t => SidebarRules.matchPermission ["blog.create"] t) ["blog.*"]
         = false).
Proof. intros [Hforbidden _]. specialize (Hforbidden eq_refl). discriminate Hforbidden. Qed.

(** C2, amended. For an authenticated identity, on a route that is not
    public-only and lists at least one required permission, the guard
    refuses iff none of the required tokens occurs verbatim among the
    identity's permissions.  Wildcard tokens are not expanded: a token
    set that the rule engine's matching rejects is refused by the guard
    too, but not the other way round. *)
Theorem Secured_forbidden_iff_none_held (props : Secured.SecuredProps)
    (w : AuthContext.World) (u : User.t) (req : list string) :
  AuthContext.sessionState w = AuthContext.Authenticated u ->
  Secured.authenticated props <> Some false ->
  Secured.permissions props = Some req ->
  req <> [] ->
  (Secured.Secured props (AuthContext.useAuth w) = Secured.Forbidden <->
   forall t, t ∈ req -> t ∉ User.permissions u) /\
  (Js.some (fun t => SidebarRules.matchPermission (User.permissions u) t) req = false ->
   Secured.Secured props (AuthContext.useAuth w) = Secured.Forbidden).
Proof.
  intros [Hl Hu]%sessionState_Authenticated Hpub Hreq Hne.
  assert (Secured.Secured props (AuthContext.useAuth w) = Secured.Forbidden <->
          forall t, t ∈ req -> t ∉ User.permissions u) as Hiff.
  { rewrite (Secured_settled _ _ Hl). unfold AuthContext.useAuth; simpl.
    rewrite Hu, Hreq, andb_false_r. simpl.
    rewrite bool_decide_eq_false_2 by done. simpl.
    destruct req as [|p ps]; [done|].
    rewrite <- held_none_iff.
    change (Js.includes (User.permissions u) p
            || Js.some (fun t => Js.includes (User.permissions u) t) ps)
      with (Js.some (fun t => Js.includes (User.permissions u) t) (p :: ps)).
    destruct (Js.some _ (p :: ps)); split; intros H; (done || discriminate H). }
  split; [exact Hiff|].
  intros Hnone. apply Hiff. intros t Ht Hheld.
  apply not_true_iff_false in Hnone. apply Hnone.
  apply some_exists. exists t. split; [done|]. by apply matchPermission_of_held.
Qed.

Lemma Secured_forbidden_iff_none_held_witness :
  Secured.Secured (Scenario.route (Some true) (Some ["blog.*"]))
    (AuthContext.useAuth
       (Scenario.signedIn (Scenario.identity "owner" ["blog.create"] [])))
  = Secured.Forbidden.
Proof.
  destruct (Secured_forbidden_iff_none_held
              (Scenario.route (Some true) (Some ["blog.*"]))
              (Scenario.signedIn (Scenario.identity "owner" ["blog.create"] []))
              (Scenario.identity "owner" ["blog.create"] []) ["blog.*"])
    as [[_ Hrefused] _].
  - reflexivity.
  - discriminate.
  - reflexivity.
  - discriminate.
  - apply Hrefused. intros t Ht Hheld. simpl in Hheld.
    apply list_elem_of_singleton in Ht. apply list_elem_of_singleton in Hheld.
    subst t. discriminate Hheld.
Defined.

(** C9. Towards an anonymous session (verification settled, no identity
    held) the guard renders the protected content on every route whose
    authentication requirement is not true, whatever permissions the
    route lists.  The permission check needs an identity to run: without
    one the guard never answers with the refusal. *)
Theorem Secured_anonymous_allowed (props : Secured.SecuredProps)
    (w : AuthContext.World) :
  (AuthContext.sessionState w = AuthContext.Anonymous ->
   Secured.authenticated props <> Some true ->
   Secured.Secured props (AuthContext.useAuth w) = Secured.Allow) /\
  (AuthContext.user w = None ->
   Secured.Secured props (AuthContext.useAuth w) <> Secured.Forbidden).
Proof.
  split.
  - intros [Hl Hu]%sessionState_Anonymous Hauth.
    rewrite (Secured_settled _ _ Hl). unfold AuthContext.useAuth; simpl.
    rewrite Hu, andb_false_r. simpl.
    rewrite bool_decide_eq_false_2 by done. simpl.
    by destruct (Secured.permissions props) as [[|p ps]|].
  - intros Hu. destruct (AuthContext.isLoading w) eqn:Hl.
    + by rewrite Secured_loading.
    + rewrite (Secured_settled _ _ Hl). unfold AuthContext.useAuth; simpl.
      rewrite Hu, andb_false_r. simpl.
      destruct (bool_decide _); simpl; [done|].
      by destruct (Secured.permissions props) as [[|p ps]|].
Qed.

Lemma Secured_anonymous_allowed_witness :
  Secured.Secured (Scenario.route None (Some ["blog.view"; "user.create"]))
    (AuthContext.useAuth Scenario.signedOut)
  = Secured.Allow.
Proof.
  apply Secured_anonymous_allowed; [reflexivity | discriminate].
Defined.

(** ** Session manager *)

Lemma verifySession_held (api : AuthContext.ApiClient) (w : AuthContext.World)
    (u : User.t) :
  AuthContext.user w = Some u ->
  Eff.exec (AuthContext.verifySession api) w =
    {| AuthContext.user := Some u; AuthContext.isLoading := false;
       AuthContext.log := AuthContext.log w |}.
Proof.
  intros Hu. unfold AuthContext.verifySession, Eff.exec, Eff.bind, Eff.gets.
  rewrite Hu. simpl. by rewrite Hu.
Qed.

(** The mount effect contacts the backend at most once, and leaves the
    loading flag settled. *)
Lemma onMount_at_most_one_call (pathname : string) (api : AuthContext.ApiClient) :
  let w := Eff.exec (AuthContext.onMount pathname api) AuthContext.initial in
  AuthContext.isLoading w = false /\
  (AuthContext.log w = [] \/
   AuthContext.log w = [AuthContext.HttpGet urls.auth_me] \/
   AuthContext.log w =
     [AuthContext.HttpGet urls.auth_me;
      AuthContext.ConsoleError "Session verification failed:"]).
Proof.
  unfold AuthContext.onMount.
  destruct (String.eqb pathname "/login"); [vm_compute; by auto|].
  unfold AuthContext.verifySession.
  destruct api as [[[d|]|[status dm de m|]] signIn signOut getUser]; cbn; auto.
  - destruct (Js.truthy (User.id d)); cbn; auto.
  - destruct status as [n|]; cbn; auto.
    destruct (decide (n = 401%nat)) as [->|Hn]; [cbn; by auto|].
    assert (match n with
            | 401%nat => Eff.ret tt
            | _ => AuthContext.emit (AuthContext.ConsoleError "Session verification failed:")
            end = AuthContext.emit (AuthContext.ConsoleError "Session verification failed:"))
      as ->.
    { do 401 (destruct n as [|n]; [reflexivity|]). destruct n; [done | reflexivity]. }
    cbn. auto.
Qed.

Lemma verifySession_held_repeatedly (w : AuthContext.World) (u : User.t)
    (apis : list AuthContext.ApiClient) :
  AuthContext.user w = Some u ->
  let w' := foldl (fun v api => Eff.exec (AuthContext.verifySession api) v) w apis in
  AuthContext.user w' = Some u /\ AuthContext.log w' = AuthContext.log w.
Proof.
  revert w. induction apis as [|api apis IH]; intros w Hu; simpl; [done|].
  rewrite (verifySession_held api w u Hu).
  destruct (IH {| AuthContext.user := Some u; AuthContext.isLoading := false;
                  AuthContext.log := AuthContext.log w |} eq_refl) as [IHu IHl].
  by split.
Qed.

(** C6. With an identity held, [verifySession] performs no effect at all
    (in particular no remote call), keeps the identity and only settles
    the loading flag; any number of further invocations, whatever the
    backend would answer, add nothing.  The one invocation that can reach
    the backend is the mount effect's, which requests the session at most
    once. *)
Theorem verifySession_skips_when_identity_held (w : AuthContext.World)
    (u : User.t) (api : AuthContext.ApiClient)
    (later : list AuthContext.ApiClient) (pathname : string) :
  AuthContext.user w = Some u ->
  Eff.exec (AuthContext.verifySession api) w =
    {| AuthContext.user := Some u; AuthContext.isLoading := false;
       AuthContext.log := AuthContext.log w |} /\
  (let w' := foldl (fun v a => Eff.exec (AuthContext.verifySession a) v)
               (Eff.exec (AuthContext.verifySession api) w) later in
   AuthContext.user w' = Some u /\ AuthContext.log w' = AuthContext.log w) /\
  (let mounted := Eff.exec (AuthContext.onMount pathname api) AuthContext.initial in
   AuthContext.log mounted = [] \/
   AuthContext.log mounted = [AuthContext.HttpGet urls.auth_me] \/
   AuthContext.log mounted =
     [AuthContext.HttpGet urls.auth_me;
      AuthContext.ConsoleError "Session verification failed:"]).
Proof.
  intros Hu. split; [by apply verifySession_held|]. split.
  - rewrite (verifySession_held api w u Hu).
    by apply (verifySession_held_repeatedly
                {| AuthContext.user := Some u; AuthContext.isLoading := false;
                   AuthContext.log := AuthContext.log w |} u later).
  - apply onMount_at_most_one_call.
Qed.

Lemma verifySession_skips_when_identity_held_witness :
  Eff.exec (AuthContext.verifySession Scenario.offline)
    (Scenario.signedIn (Scenario.identity "owner" [] []))
  = Scenario.signedIn (Scenario.identity "owner" [] []).
Proof.
  destruct (verifySession_skips_when_identity_held
              (Scenario.signedIn (Scenario.identity "owner" [] []))
              (Scenario.identity "owner" [] [])
              Scenario.offline [Scenario.offline] "/") as [Hskip _].
  - reflexivity.
  - exact Hskip.
Defined.


(** C8. Whatever the sign-out request does, [logout] ends with no
    identity held.  It does not touch the loading flag: where the
    verification had settled before, the session is anonymous
    afterwards. *)
Theorem logout_clears_identity (api : AuthContext.ApiClient) (w : AuthContext.World) :
  let w' := Eff.exec (AuthContext.logout api) w in
  AuthContext.user w' = None /\
  AuthContext.ctx_isAuthenticated (AuthContext.useAuth w') = false /\
  (AuthContext.isLoading w = false ->
   AuthContext.sessionState w' = AuthContext.Anonymous).
Proof.
  assert (AuthContext.user (Eff.exec (AuthContext.logout api) w) = None /\
          AuthContext.isLoading (Eff.exec (AuthContext.logout api) w)
            = AuthContext.isLoading w) as [Hu Hl].
  { unfold AuthContext.logout, Eff.exec, Eff.bind.
    by destruct (AuthContext.post_signOut api). }
  simpl. repeat split; [done | by rewrite Hu |].
  intros Hsettled. apply sessionState_Anonymous. split; [|done].
  by rewrite Hl.
Qed.

Lemma logout_clears_identity_witness :
  AuthContext.sessionState
    (Eff.exec (AuthContext.logout Scenario.offline)
       (Eff.exec
          (AuthContext.onMount "/"
             (Scenario.serving (Scenario.identity "owner" ["blog.view"] [])))
          AuthContext.initial))
  = AuthContext.Anonymous.
Proof.
  apply (logout_clears_identity Scenario.offline).
  reflexivity.
Defined.

(** The same session, step by step: restored on mount, then logged out
    while the backend is unreachable. *)
Example logout_offline :
  let restored :=
    Eff.exec
      (AuthContext.onMount "/"
         (Scenario.serving (Scenario.identity "owner" ["blog.view"] [])))
      AuthContext.initial in
  AuthContext.sessionState restored
    = AuthContext.Authenticated (Scenario.identity "owner" ["blog.view"] []) /\
  Eff.exec (AuthContext.logout Scenario.offline) restored =
    {| AuthContext.user := None; AuthContext.isLoading := false;
       AuthContext.log :=
         [AuthContext.HttpGet "/auth/me"; AuthContext.HttpPost "/auth/sign-out";
          AuthContext.ConsoleError "Logout error:"] |}.
Proof. split; reflexivity. Qed.

(** ** Tenant selector *)

Lemma truthy_nonempty (s : string) : s <> "" -> Js.truthy s = true.
Proof.
  intros Hs. unfold Js.truthy. apply negb_true_iff, String.eqb_neq. exact Hs.
Qed.

Lemma role_eqb_other (r : string) :
  r <> "team_member" -> String.eqb r "team_member" = false.
Proof. apply String.eqb_neq. Qed.

Lemma find_by_id_id (i : string) (cs : list Company.t) (t : Company.t) :
  Js.find (fun c => String.eqb (Company.id c) i) cs = Some t -> Company.id t = i.
Proof.
  intros Hfind. apply find_some in Hfind as [_ Heq]. by apply String.eqb_eq.
Qed.

Ltac run_provider :=
  cbv beta iota zeta delta
    [Eff.exec Eff.bind Eff.modify Eff.gets Eff.ret snd fst negb andb
     CompanyContext.fetchCompanies CompanyContext.refreshCompanies
     CompanyContext.onUserChange
     CompanyContext.setItem CompanyContext.getItem CompanyContext.removeItem
     CompanyContext.setCompanies CompanyContext.setSelectedCompanyState
     CompanyContext.setIsLoading CompanyContext.emit CompanyContext.withStorage];
  cbn [CompanyContext.companies CompanyContext.selectedCompany
       CompanyContext.isLoading CompanyContext.localStorage CompanyContext.log].

(** C4. Nothing persisted, nothing selected, a role that browses
    tenants: when the tenant of the first membership is in the fetched
    list it becomes the active tenant and is persisted, wherever it
    stands in creation order. *)
Theorem fetchCompanies_prefers_first_membership (getTime : string -> Js.number)
    (svc : CompanyContext.CompanyService) (u : User.t) (c : UserCompany.t)
    (rest : list UserCompany.t) (fetched : list Company.t) (t : Company.t)
    (w : CompanyContext.World) :
  User.role u <> "team_member" ->
  User.companies u = c :: rest ->
  UserCompany.id c <> "" ->
  CompanyContext.list_ svc = Js.Fulfilled fetched ->
  Js.find (fun x => String.eqb (Company.id x) (UserCompany.id c)) fetched = Some t ->
  CompanyContext.localStorage w !! CompanyContext.SELECTED_COMPANY_STORAGE_KEY = None ->
  CompanyContext.selectedCompany w = None ->
  let w' := Eff.exec (CompanyContext.fetchCompanies getTime svc (Some u)
                        (CompanyContext.selectedCompany w)) w in
  CompanyContext.selectedCompany w' = Some t /\
  Company.id t = UserCompany.id c /\
  CompanyContext.localStorage w' !! CompanyContext.SELECTED_COMPANY_STORAGE_KEY
    = Some (Company.id t) /\
  CompanyContext.companies w' = fetched /\
  CompanyContext.isLoading w' = false.
Proof.
  intros Hrole Hcs Hid Hlist Hfind Hstore Hsel.
  apply role_eqb_other in Hrole. pose proof (truthy_nonempty _ Hid) as Htruthy.
  rewrite Hsel. run_provider.
  rewrite Hcs, Htruthy, Hrole. run_provider. rewrite Hlist. run_provider.
  rewrite Hstore, Hfind. run_provider.
  repeat split; try reflexivity.
  - by apply find_by_id_id in Hfind.
  - apply lookup_insert_eq.
Qed.

Lemma fetchCompanies_prefers_first_membership_witness :
  Company.id <$>
    CompanyContext.selectedCompany
      (Eff.exec
         (CompanyContext.fetchCompanies Scenario.parseStamp
            (Scenario.listing [Scenario.tenantA; Scenario.tenantB])
            (Some (Scenario.identity "owner" [] [Scenario.membership "b"]))
            None)
         (Scenario.freshTab ∅))
  = Some "b".
Proof.
  destruct (fetchCompanies_prefers_first_membership Scenario.parseStamp
              (Scenario.listing [Scenario.tenantA; Scenario.tenantB])
              (Scenario.identity "owner" [] [Scenario.membership "b"])
              (Scenario.membership "b") []
              [Scenario.tenantA; Scenario.tenantB] Scenario.tenantB
              (Scenario.freshTab ∅)) as (Hselected & _).
  - discriminate.
  - reflexivity.
  - discriminate.
  - reflexivity.
  - reflexivity.
  - apply lookup_empty.
  - reflexivity.
  - exact (f_equal (fmap Company.id) Hselected).
Defined.

(** When the first membership is not in the list, the earliest-created
    tenant is taken instead. *)
Example fetchCompanies_earliest_created :
  Company.id <$>
    CompanyContext.selectedCompany
      (Eff.exec
         (CompanyContext.fetchCompanies Scenario.parseStamp
            (Scenario.listing [Scenario.tenantB; Scenario.tenantA])
            (Some (Scenario.identity "owner" [] [Scenario.membership "z"]))
            None)
         (Scenario.freshTab ∅))
  = Some "a".
Proof. reflexivity. Qed.

(** A stamp that is no date compares as [NaN] with every other: the
    list then stays as it is (so it does in V8), and the tenant in front
    is taken although a listed tenant was created before it. *)
Example fetchCompanies_unparsable_stamp :
  Company.id <$>
    CompanyContext.selectedCompany
      (Eff.exec
         (CompanyContext.fetchCompanies Scenario.parseStamp
            (Scenario.listing [Scenario.tenantB; Scenario.tenant "n" ""; Scenario.tenantA])
            (Some (Scenario.identity "owner" [] [Scenario.membership "z"]))
            None)
         (Scenario.freshTab ∅))
  = Some "b".
Proof. reflexivity. Qed.

Lemma elem_of_insert {A : Type} (comparefn : A -> A -> Js.number) (x c : A)
    (cs : list A) :
  x ∈ Js.insert comparefn c cs -> x = c \/ x ∈ cs.
Proof.
  induction cs as [|d ds IH]; simpl.
  - intros ->%list_elem_of_singleton. by left.
  - destruct (_ <=? 0)%Z.
    + intros [->|H]%elem_of_cons; [by left | by right].
    + intros [->|H]%elem_of_cons; [right; by left|].
      destruct (IH H) as [->|Hds]; [by left | right; by right].
Qed.

Lemma elem_of_sortByCreatedAt (getTime : string -> Js.number) (x : Company.t)
    (cs : list Company.t) :
  x ∈ CompanyContext.sortByCreatedAt getTime cs -> x ∈ cs.
Proof.
  unfold CompanyContext.sortByCreatedAt, Js.sort.
  induction cs as [|c cs IH]; simpl; [done|].
  intros [->|H]%elem_of_insert; [by left | right; by apply IH].
Qed.

Lemma sortByCreatedAt_nil (getTime : string -> Js.number) (cs : list Company.t) :
  CompanyContext.sortByCreatedAt getTime cs = [] -> cs = [].
Proof.
  unfold CompanyContext.sortByCreatedAt, Js.sort.
  destruct cs as [|c cs]; [done|]. simpl.
  destruct (foldr _ [] cs) as [|d ds]; simpl; [done|].
  by destruct (_ <=? 0)%Z.
Qed.

(** Where every stamp of the list is a date, the head of the sorted list
    is the first of the tenants that no other tenant predates: the
    tenants before it in the list are younger, those after it are not
    older. *)
Lemma sortByCreatedAt_head_earliest (getTime : string -> Js.number)
    (cs : list Company.t) :
  Forall (fun x => is_Some (getTime (Company.created_at x))) cs ->
  cs <> [] ->
  exists (before : list Company.t) (d : Company.t) (after : list Company.t) (td : Z),
    cs = (before ++ d :: after)%list /\
    head (CompanyContext.sortByCreatedAt getTime cs) = Some d /\
    getTime (Company.created_at d) = Some td /\
    (forall x, x ∈ before ->
       exists tx, getTime (Company.created_at x) = Some tx /\ (td < tx)%Z) /\
    (forall x, x ∈ after ->
       exists tx, getTime (Company.created_at x) = Some tx /\ (td <= tx)%Z).
Proof.
  unfold CompanyContext.sortByCreatedAt, Js.sort.
  induction cs as [|c cs IH]; [done|].
  intros [[tc Hc] Hdates]%Forall_cons _.
  destruct cs as [|c' cs'].
  { exists [], c, [], tc.
    split; [done|]. split; [done|]. split; [done|].
    split; intros x Hx; by apply elem_of_nil in Hx. }
  destruct (IH Hdates) as (before & d & after & td & Hcs & Hhead & Hd & Hbefore & Hafter);
    [done|].
  rewrite Hcs.
  change (foldr (Js.insert (CompanyContext.byCreatedAt getTime)) []
            (c :: before ++ d :: after))
    with (Js.insert (CompanyContext.byCreatedAt getTime) c
            (foldr (Js.insert (CompanyContext.byCreatedAt getTime)) []
               (before ++ d :: after))).
  rewrite <- Hcs.
  destruct (foldr _ [] (c' :: cs')) as [|e es]; [done|].
  injection Hhead as ->. simpl.
  unfold CompanyContext.byCreatedAt at 1. rewrite Hc, Hd. simpl.
  destruct (tc - td <=? 0)%Z eqn:Hle.
  - apply Z.leb_le in Hle. exists [], c, (c' :: cs'), tc.
    split; [done|]. split; [done|]. split; [done|]. split.
    + intros x Hx. by apply elem_of_nil in Hx.
    + rewrite Hcs. intros x [Hx|[->|Hx]%elem_of_cons]%elem_of_app.
      * destruct (Hbefore x Hx) as (tx & Htx & Hlt). exists tx. split; [done | lia].
      * exists td. split; [done | lia].
      * destruct (Hafter x Hx) as (tx & Htx & Hlt). exists tx. split; [done | lia].
  - apply Z.leb_gt in Hle. exists (c :: before), d, after, td.
    split; [by rewrite Hcs|]. split; [done|]. split; [done|]. split; [|done].
    intros x [->|Hx]%elem_of_cons; [|by apply Hbefore].
    exists tc. split; [done | lia].
Qed.

Lemma find_by_id_None (i : string) (cs : list Company.t) (d : Company.t) :
  Js.find (fun c => String.eqb (Company.id c) i) cs = None ->
  d ∈ cs -> Company.id d <> i.
Proof.
  intros Hnone Hd Heq. apply list_elem_of_In in Hd.
  pose proof (find_none _ _ Hnone d Hd) as Hne. simpl in Hne.
  apply String.eqb_neq in Hne. by apply Hne.
Qed.

Lemma find_by_id_elem_of (i : string) (cs : list Company.t) (d : Company.t) :
  Js.find (fun c => String.eqb (Company.id c) i) cs = Some d -> d ∈ cs.
Proof. intros H. apply find_some in H as [H _]. by apply list_elem_of_In. Qed.

Lemma no_companies (cs : list Company.t) :
  (0 <? List.length cs)%nat = false -> cs = [].
Proof. by destruct cs. Qed.

Lemma trim_nonempty (s : string) : Js.trim s <> "" -> Js.truthy s = true.
Proof. intros Ht. apply truthy_nonempty. by intros ->. Qed.

(** The run that finds a persisted entry whose trimmed value is not
    blank and is the id of no listed tenant, next to the run that finds
    no entry. *)
Lemma fetchCompanies_stale_run (getTime : string -> Js.number)
    (svc : CompanyContext.CompanyService) (u : User.t) (c : UserCompany.t)
    (rest : list UserCompany.t) (fetched : list Company.t) (saved : string)
    (w : CompanyContext.World) :
  User.role u <> "team_member" ->
  User.companies u = c :: rest ->
  UserCompany.id c <> "" ->
  CompanyContext.list_ svc = Js.Fulfilled fetched ->
  CompanyContext.localStorage w !! CompanyContext.SELECTED_COMPANY_STORAGE_KEY
    = Some saved ->
  Js.trim saved <> "" ->
  Js.find (fun x => String.eqb (Company.id x) (Js.trim saved)) fetched = None ->
  match CompanyContext.selectedCompany w with
  | Some current =>
      Js.find (fun x => String.eqb (Company.id x) (Company.id current)) fetched = None
  | None => True
  end ->
  let key := CompanyContext.SELECTED_COMPANY_STORAGE_KEY in
  let nothingSaved :=
    {| CompanyContext.companies := CompanyContext.companies w;
       CompanyContext.selectedCompany := CompanyContext.selectedCompany w;
       CompanyContext.isLoading := CompanyContext.isLoading w;
       CompanyContext.localStorage := delete key (CompanyContext.localStorage w);
       CompanyContext.log := CompanyContext.log w |} in
  let resolve :=
    Eff.exec (CompanyContext.fetchCompanies getTime svc (Some u)
                (CompanyContext.selectedCompany w)) in
  (exists further,
     CompanyContext.log (resolve w) =
       (CompanyContext.log w
        ++ [CompanyContext.CallList; CompanyContext.GetItem key;
            CompanyContext.RemoveItem key] ++ further)%list /\
     CompanyContext.log (resolve nothingSaved) =
       (CompanyContext.log w
        ++ [CompanyContext.CallList; CompanyContext.GetItem key] ++ further)%list) /\
  CompanyContext.localStorage (resolve w) !! key <> Some (Js.trim saved) /\
  CompanyContext.selectedCompany (resolve w) =
    match Js.find (fun x => String.eqb (Company.id x) (UserCompany.id c)) fetched with
    | Some firstMembership => Some firstMembership
    | None =>
        match head (CompanyContext.sortByCreatedAt getTime fetched) with
        | Some earliest => Some earliest
        | None => CompanyContext.selectedCompany w
        end
    end /\
  CompanyContext.selectedCompany (resolve w)
    = CompanyContext.selectedCompany (resolve nothingSaved) /\
  CompanyContext.companies (resolve w)
    = CompanyContext.companies (resolve nothingSaved) /\
  CompanyContext.localStorage (resolve w)
    = CompanyContext.localStorage (resolve nothingSaved) /\
  CompanyContext.isLoading (resolve w)
    = CompanyContext.isLoading (resolve nothingSaved).
Proof.
  intros Hrole Hcs Hid Hlist Hstore Htrim Hstale Hsel key nothingSaved resolve.
  apply role_eqb_other in Hrole. pose proof (truthy_nonempty _ Hid) as Htruthy.
  pose proof (trim_nonempty _ Htrim) as Hsaved.
  apply String.eqb_neq in Htrim.
  subst resolve nothingSaved key.
  run_provider. rewrite Hcs, Htruthy, Hrole. run_provider. rewrite Hlist. run_provider.
  rewrite Hstore, lookup_delete_eq, Hsaved, Htrim, Hstale.
  assert (forall d, d ∈ fetched ->
            Some (Company.id d) <> Some (Js.trim saved)) as Hfresh.
  { intros d Hd [= Heq]. by apply (find_by_id_None _ _ d Hstale). }
  assert (match CompanyContext.selectedCompany w with
          | Some current =>
              Js.find (fun c0 => String.eqb (Company.id c0) (Company.id current))
                fetched
          | None => None
          end = None) as Hkeep.
  { by destruct (CompanyContext.selectedCompany w). }
  destruct (CompanyContext.selectedCompany w) as [current|];
    [rewrite Hkeep|]; clear Hkeep Hsel;
    (destruct (Js.find (fun c0 => String.eqb (Company.id c0) (UserCompany.id c))
                 fetched) as [d|] eqn:Hfirst;
     [apply find_by_id_elem_of in Hfirst
     |destruct (0 <? List.length fetched)%nat eqn:Hlen;
      [destruct (head (CompanyContext.sortByCreatedAt getTime fetched))
         as [d|] eqn:Hhead;
       [apply head_Some_elem_of, elem_of_sortByCreatedAt in Hhead|]
      |apply no_companies in Hlen; subst fetched]]);
    run_provider;
    (split; [eexists; split; rewrite <- ?app_assoc; simpl; reflexivity|]);
    (split; [first [rewrite lookup_insert_eq; by apply Hfresh
                   |by rewrite lookup_delete_eq]|]);
    repeat split; reflexivity.
Qed.

(** C7, as stated, fails: the provider reads the persisted id trimmed.
    The persisted " a " is the id of no listed tenant, yet the entry is
    not removed, and tenant "a" becomes active where the run without a
    persisted id resolves to "b", the tenant of the first membership. *)
Lemma fetchCompanies_reads_saved_id_trimmed :
  let fetched := [Scenario.tenantA; Scenario.tenantB] in
  let key := CompanyContext.SELECTED_COMPANY_STORAGE_KEY in
  let resolve storage :=
    Eff.exec
      (CompanyContext.fetchCompanies Scenario.parseStamp (Scenario.listing fetched)
         (Some (Scenario.identity "owner" [] [Scenario.membership "b"])) None)
      (Scenario.freshTab storage) in
  ~ (Js.find (fun x => String.eqb (Company.id x) " a ") fetched = None ->
     CompanyContext.RemoveItem key ∈ CompanyContext.log (resolve {[ key := " a " ]}) /\
     CompanyContext.selectedCompany (resolve {[ key := " a " ]})
       = CompanyContext.selectedCompany (resolve ∅)).
Proof.
  intros fetched key resolve Hclaim.
  destruct (Hclaim eq_refl) as [_ Hsame].
  apply (f_equal (fmap Company.id)) in Hsame. vm_compute in Hsame. discriminate Hsame.
Qed.

(** C7, amended. A persisted entry whose trimmed value is not blank and
    is the id of no listed tenant (the in-memory selection not being in
    the list either) is removed from storage right after it was read.
    The active tenant is then the tenant of the first membership if the
    list has it, else the tenant created earliest (the first such in the
    list, where the stamps of the list are dates), and from the removal
    on the run coincides with the run that would have found no persisted
    id: same active tenant, same list, same storage, same further
    effects. *)
Theorem fetchCompanies_discards_stale_saved_id (getTime : string -> Js.number)
    (svc : CompanyContext.CompanyService) (u : User.t) (c : UserCompany.t)
    (rest : list UserCompany.t) (fetched : list Company.t) (saved : string)
    (w : CompanyContext.World) :
  User.role u <> "team_member" ->
  User.companies u = c :: rest ->
  UserCompany.id c <> "" ->
  CompanyContext.list_ svc = Js.Fulfilled fetched ->
  CompanyContext.localStorage w !! CompanyContext.SELECTED_COMPANY_STORAGE_KEY
    = Some saved ->
  Js.trim saved <> "" ->
  Js.find (fun x => String.eqb (Company.id x) (Js.trim saved)) fetched = None ->
  match CompanyContext.selectedCompany w with
  | Some current =>
      Js.find (fun x => String.eqb (Company.id x) (Company.id current)) fetched = None
  | None => True
  end ->
  let key := CompanyContext.SELECTED_COMPANY_STORAGE_KEY in
  let nothingSaved :=
    {| CompanyContext.companies := CompanyContext.companies w;
       CompanyContext.selectedCompany := CompanyContext.selectedCompany w;
       CompanyContext.isLoading := CompanyContext.isLoading w;
       CompanyContext.localStorage := delete key (CompanyContext.localStorage w);
       CompanyContext.log := CompanyContext.log w |} in
  let resolve :=
    Eff.exec (CompanyContext.fetchCompanies getTime svc (Some u)
                (CompanyContext.selectedCompany w)) in
  let ofFirstMembership :=
    Js.find (fun x => String.eqb (Company.id x) (UserCompany.id c)) fetched in
  (exists further,
     CompanyContext.log (resolve w) =
       (CompanyContext.log w
        ++ [CompanyContext.CallList; CompanyContext.GetItem key;
            CompanyContext.RemoveItem key] ++ further)%list /\
     CompanyContext.log (resolve nothingSaved) =
       (CompanyContext.log w
        ++ [CompanyContext.CallList; CompanyContext.GetItem key] ++ further)%list) /\
  CompanyContext.localStorage (resolve w) !! key <> Some (Js.trim saved) /\
  (forall t, ofFirstMembership = Some t ->
     CompanyContext.selectedCompany (resolve w) = Some t) /\
  (ofFirstMembership = None -> fetched <> [] ->
   Forall (fun x => is_Some (getTime (Company.created_at x))) fetched ->
   exists (before : list Company.t) (earliest : Company.t) (after : list Company.t)
          (t : Z),
     fetched = (before ++ earliest :: after)%list /\
     CompanyContext.selectedCompany (resolve w) = Some earliest /\
     getTime (Company.created_at earliest) = Some t /\
     (forall x, x ∈ before ->
        exists tx, getTime (Company.created_at x) = Some tx /\ (t < tx)%Z) /\
     (forall x, x ∈ after ->
        exists tx, getTime (Company.created_at x) = Some tx /\ (t <= tx)%Z)) /\
  (fetched = [] ->
   CompanyContext.selectedCompany (resolve w) = CompanyContext.selectedCompany w) /\
  CompanyContext.selectedCompany (resolve w)
    = CompanyContext.selectedCompany (resolve nothingSaved) /\
  CompanyContext.companies (resolve w)
    = CompanyContext.companies (resolve nothingSaved) /\
  CompanyContext.localStorage (resolve w)
    = CompanyContext.localStorage (resolve nothingSaved) /\
  CompanyContext.isLoading (resolve w)
    = CompanyContext.isLoading (resolve nothingSaved).
Proof.
  intros Hrole Hcs Hid Hlist Hstore Htrim Hstale Hsel.
  destruct (fetchCompanies_stale_run getTime svc u c rest fetched saved w
              Hrole Hcs Hid Hlist Hstore Htrim Hstale Hsel)
    as (Hlog & Hgone & Hchosen & Hsame & Hcompanies & Hstorage & Hloading).
  intros key nothingSaved resolve ofFirstMembership.
  split; [exact Hlog|]. split; [exact Hgone|].
  fold key nothingSaved resolve ofFirstMembership in Hchosen.
  split; [|split; [|split]].
  - intros t Hfirst. by rewrite Hchosen, Hfirst.
  - intros Hfirst Hne Hdates.
    destruct (sortByCreatedAt_head_earliest getTime fetched Hdates Hne)
      as (before & d & after & t & Hsplit & Hhead & Ht & Hbefore & Hafter).
    exists before, d, after, t. rewrite Hchosen, Hfirst, Hhead. done.
  - intros ->. by rewrite Hchosen.
  - done.
Qed.

Lemma fetchCompanies_discards_stale_saved_id_witness :
  CompanyContext.localStorage
    (Eff.exec
       (CompanyContext.fetchCompanies Scenario.parseStamp
          (Scenario.listing [Scenario.tenantA; Scenario.tenantB])
          (Some (Scenario.identity "owner" [] [Scenario.membership "b"]))
          None)
       (Scenario.freshTab {[ CompanyContext.SELECTED_COMPANY_STORAGE_KEY := "gone" ]}))
    !! CompanyContext.SELECTED_COMPANY_STORAGE_KEY
  <> Some "gone".
Proof.
  destruct (fetchCompanies_discards_stale_saved_id Scenario.parseStamp
              (Scenario.listing [Scenario.tenantA; Scenario.tenantB])
              (Scenario.identity "owner" [] [Scenario.membership "b"])
              (Scenario.membership "b") []
              [Scenario.tenantA; Scenario.tenantB] "gone"
              (Scenario.freshTab
                 {[ CompanyContext.SELECTED_COMPANY_STORAGE_KEY := "gone" ]}))
    as (_ & Hgone & _).
  - discriminate.
  - reflexivity.
  - discriminate.
  - reflexivity.
  - apply lookup_singleton_eq.
  - discriminate.
  - reflexivity.
  - exact I.
  - exact Hgone.
Defined.

(** The stale id gives way to the first membership, as on a fresh tab. *)
Example fetchCompanies_stale_then_membership :
  let after :=
    Eff.exec
      (CompanyContext.fetchCompanies Scenario.parseStamp
         (Scenario.listing [Scenario.tenantA; Scenario.tenantB])
         (Some (Scenario.identity "owner" [] [Scenario.membership "b"]))
         None)
      (Scenario.freshTab {[ CompanyContext.SELECTED_COMPANY_STORAGE_KEY := "gone" ]}) in
  Company.id <$> CompanyContext.selectedCompany after = Some "b" /\
  CompanyContext.localStorage after !! CompanyContext.SELECTED_COMPANY_STORAGE_KEY
    = Some "b" /\
  CompanyContext.log after =
    [CompanyContext.CallList;
     CompanyContext.GetItem "csid";
     CompanyContext.RemoveItem "csid";
     CompanyContext.SetItem "csid" "b"].
Proof. vm_compute. auto. Qed.



(** A team member whose assigned tenant can be fetched: the persisted
    entry is overwritten without having been read. *)
Example fetchCompanies_team_member_overwrites :
  let after :=
    Eff.exec
      (CompanyContext.fetchCompanies Scenario.parseStamp
         (Scenario.listing [Scenario.tenantA; Scenario.tenantB])
         (Some (Scenario.identity "team_member" [] [Scenario.membership "b"]))
         None)
      (Scenario.freshTab {[ CompanyContext.SELECTED_COMPANY_STORAGE_KEY := "a" ]}) in
  CompanyContext.selectedCompany after = Some Scenario.tenantB /\
  CompanyContext.localStorage after !! CompanyContext.SELECTED_COMPANY_STORAGE_KEY
    = Some "b" /\
  CompanyContext.log after =
    [CompanyContext.CallGet "b"; CompanyContext.SetItem "csid" "b"].
Proof. vm_compute. auto. Qed.

(** * Further properties of the rule engine *)

Lemma matchPermission_cases (P : list string) (T : string) :
  SidebarRules.matchPermission P T = true <->
  T ∈ P \/
  (Js.endsWith T ".*" = true /\
   exists p, p ∈ P /\ Js.startsWith p (Js.slice_to_minus T 2) = true).
Proof.
  unfold SidebarRules.matchPermission.
  destruct (Js.includes P T) eqn:Hinc.
  - apply includes_elem_of in Hinc. tauto.
  - assert (T ∉ P) as Hnot.
    { intros Hin. apply includes_elem_of in Hin. congruence. }
    destruct (Js.endsWith T ".*").
    + rewrite some_exists. tauto.
    + split; [done|]. intros [Hin|[Hend _]]; [done | discriminate Hend].
Qed.

Lemma Expr_rect_nested (P : RuleSyntax.Expr -> Prop) :
  (forall rules, Forall P rules -> P (RuleSyntax.And rules)) ->
  (forall rules, Forall P rules -> P (RuleSyntax.Or rules)) ->
  (forall permission, P (RuleSyntax.HasPermission permission)) ->
  (forall feature, P (RuleSyntax.HasFeature feature)) ->
  P RuleSyntax.IsAuthenticated ->
  (forall role, P (RuleSyntax.HasRole role)) ->
  forall e, P e.
Proof.
  intros Hand Hor Hperm Hfeat Hauth Hrole.
  fix IH 1.
  intros [rules|rules|p|f| |r];
    [ | |apply Hperm|apply Hfeat|exact Hauth|apply Hrole].
  - apply Hand. induction rules as [|e rules IHrules];
      constructor; [apply IH | exact IHrules].
  - apply Hor. induction rules as [|e rules IHrules];
      constructor; [apply IH | exact IHrules].
Qed.

(** X1. For a token that does not end in ".*" the permission rule holds
    exactly when the token is among the context's permissions: no prefix
    and no case folding is applied. *)
Theorem hasPermission_exact_token (T : string) (context : SidebarRules.RuleContext) :
  Js.endsWith T ".*" = false ->
  (SidebarRules.evaluate (SidebarRules.hasPermission T) context = true <->
   T ∈ SidebarRules.permissions context).
Proof. intros Hend. simpl. by apply matchPermission_exact. Qed.

Lemma hasPermission_exact_token_witness :
  SidebarRules.evaluate (SidebarRules.hasPermission "blog.view")
    {| SidebarRules.user := None;
       SidebarRules.permissions := ["Blog.View"; "blog.viewer"; "blog"];
       SidebarRules.features := None |} <> true.
Proof.
  intros Hheld.
  apply (hasPermission_exact_token "blog.view") in Hheld; [|reflexivity].
  simpl in Hheld. repeat (apply elem_of_cons in Hheld as [Heq|Hheld]; [discriminate Heq|]).
  by apply elem_of_nil in Hheld.
Defined.

(** X2. Rules written with the exported constructors are monotone in
    the permissions: with the same user and features, a context that
    holds all permissions of another satisfies every rule the other
    satisfies.  No combinator can turn an extra permission into a lost
    menu entry. *)
Theorem rules_monotone_in_permissions (e : RuleSyntax.Expr)
    (context context' : SidebarRules.RuleContext) :
  SidebarRules.user context = SidebarRules.user context' ->
  SidebarRules.features context = SidebarRules.features context' ->
  (forall p, p ∈ SidebarRules.permissions context ->
             p ∈ SidebarRules.permissions context') ->
  SidebarRules.evaluate (RuleSyntax.build e) context = true ->
  SidebarRules.evaluate (RuleSyntax.build e) context' = true.
Proof.
  intros Huser Hfeat Hsub. induction e as [rules IH|rules IH|p|f| |r]
    using Expr_rect_nested; simpl.
  - rewrite !every_forall. intros Hall r [e [-> He]]%list_elem_of_fmap.
    rewrite Forall_forall in IH. apply (IH e He), Hall.
    apply list_elem_of_fmap. by exists e.
  - rewrite !some_exists. intros (r & [e [-> He]]%list_elem_of_fmap & Hr).
    rewrite Forall_forall in IH. exists (RuleSyntax.build e). split.
    + apply list_elem_of_fmap. by exists e.
    + by apply (IH e He).
  - rewrite !matchPermission_cases. intros [Hin|(Hend & q & Hq & Hpre)].
    + left. by apply Hsub.
    + right. split; [done|]. exists q. split; [by apply Hsub | done].
  - by rewrite Hfeat.
  - by rewrite Huser.
  - by rewrite Huser.
Qed.

Lemma rules_monotone_in_permissions_witness :
  SidebarRules.evaluate
    (RuleSyntax.build
       (RuleSyntax.Or [RuleSyntax.HasPermission "account.read";
                       RuleSyntax.And [RuleSyntax.HasPermission "blog.*";
                                       RuleSyntax.IsAuthenticated]]))
    {| SidebarRules.user := None;
       SidebarRules.permissions := ["blog.view"; "account.read"];
       SidebarRules.features := None |} = true.
Proof.
  apply (rules_monotone_in_permissions _
           {| SidebarRules.user := None;
              SidebarRules.permissions := ["account.read"];
              SidebarRules.features := None |}).
  - reflexivity.
  - reflexivity.
  - simpl. intros p Hp. apply list_elem_of_singleton in Hp. subst p.
    right. by left.
  - reflexivity.
Defined.

(** X3. The bare wildcard ".*" has the empty prefix: it is satisfied by
    every non-empty list of held permissions, and by no empty one. *)
Theorem bare_wildcard_matches_any (P : list string) :
  SidebarRules.matchPermission P ".*" = true <-> P <> [].
Proof.
  rewrite matchPermission_cases. split.
  - intros [Hin|(_ & p & Hp & _)] ->; by eapply elem_of_nil.
  - intros Hne. destruct P as [|p P]; [done|]. right. split; [reflexivity|].
    exists p. split; [by left | by destruct p].
Qed.

(** X4. Roles are compared for equality: a role rule implies the
    authenticated rule, and a context satisfies the role rule of at most
    one role (there is no hierarchy between roles). *)
Theorem hasRole_exclusive (role role' : string) (context : SidebarRules.RuleContext) :
  SidebarRules.evaluate (SidebarRules.hasRole role) context = true ->
  SidebarRules.evaluate SidebarRules.isAuthenticated context = true /\
  (SidebarRules.evaluate (SidebarRules.hasRole role') context = true ->
   role' = role).
Proof.
  simpl. destruct (SidebarRules.user context) as [u|]; [|done].
  destruct (SidebarRules.user_role u) as [r|]; [|done].
  intros <-%String.eqb_eq. split; [done|]. by intros <-%String.eqb_eq.
Qed.

Lemma hasRole_exclusive_witness :
  SidebarRules.evaluate (SidebarRules.hasRole "owner") Examples.masterContext
  <> true.
Proof.
  intros Howner.
  destruct (hasRole_exclusive "master" "owner" Examples.masterContext)
    as [_ Hexcl]; [reflexivity|].
  discriminate (Hexcl Howner).
Defined.

(** X5. Composites nest transparently: a conjunction of conjunctions is
    the conjunction of all their children, likewise for disjunctions,
    and a composite of one rule is that rule. *)
Theorem composites_flatten (rs rs' : list SidebarRules.Rule)
    (r : SidebarRules.Rule) (context : SidebarRules.RuleContext) :
  SidebarRules.evaluate
    (SidebarRules.and [SidebarRules.and rs; SidebarRules.and rs']) context
  = SidebarRules.evaluate (SidebarRules.and (rs ++ rs')) context /\
  SidebarRules.evaluate
    (SidebarRules.or [SidebarRules.or rs; SidebarRules.or rs']) context
  = SidebarRules.evaluate (SidebarRules.or (rs ++ rs')) context /\
  SidebarRules.evaluate (SidebarRules.and [r]) context
  = SidebarRules.evaluate r context /\
  SidebarRules.evaluate (SidebarRules.or [r]) context
  = SidebarRules.evaluate r context.
Proof.
  simpl. unfold Js.every, Js.some.
  rewrite forallb_app, existsb_app, !andb_true_r, !orb_false_r. done.
Qed.

(** X6. The value of a composite does not depend on the order of its
    children. *)
Theorem composites_order_independent (rs rs' : list SidebarRules.Rule)
    (context : SidebarRules.RuleContext) :
  Permutation rs rs' ->
  SidebarRules.evaluate (SidebarRules.and rs) context
  = SidebarRules.evaluate (SidebarRules.and rs') context /\
  SidebarRules.evaluate (SidebarRules.or rs) context
  = SidebarRules.evaluate (SidebarRules.or rs') context.
Proof.
  simpl. unfold Js.every, Js.some.
  induction 1 as [|r l l' _ [IHa IHo]|r r' l|l l' l'' _ [IHa IHo] _ [IHa' IHo']];
    simpl.
  - done.
  - by rewrite IHa, IHo.
  - split.
    + by destruct (SidebarRules.evaluate r context),
                  (SidebarRules.evaluate r' context).
    + by destruct (SidebarRules.evaluate r context),
                  (SidebarRules.evaluate r' context).
  - split; congruence.
Qed.

Lemma composites_order_independent_witness :
  SidebarRules.evaluate
    (SidebarRules.or [SidebarRules.hasPermission "account.write";
                      SidebarRules.hasPermission "account.read"])
    Scenario.anonymousContext
  = SidebarRules.evaluate
      (SidebarRules.or [SidebarRules.hasPermission "account.read";
                        SidebarRules.hasPermission "account.write"])
      Scenario.anonymousContext.
Proof.
  apply (composites_order_independent
           [SidebarRules.hasPermission "account.write";
            SidebarRules.hasPermission "account.read"]
           [SidebarRules.hasPermission "account.read";
            SidebarRules.hasPermission "account.write"]).
  apply perm_swap.
Defined.

(** * Further properties of the sidebar *)

Lemma SidebarItem_nested_ind (P : SidebarItems.SidebarItem -> Prop) :
  (forall item, Forall P (SidebarItems.children item) -> P item) ->
  forall item, P item.
Proof.
  intros Hstep. fix IH 1. intros [h i t r cs b bc]. apply Hstep. simpl.
  induction cs as [|c cs IHcs]; constructor; [apply IH | exact IHcs].
Qed.

Lemma subitems_unfold (item : SidebarItems.SidebarItem) :
  SidebarItems.subitems item
  = item :: flat_map SidebarItems.subitems (SidebarItems.children item).
Proof.
  by destruct item.
Qed.

Lemma entries_group (h t : string) (level : nat) (o a : bool)
    (shown : list Sidebar.Rendered) :
  Sidebar.entries (Sidebar.GroupButton h t level o a shown)
  = (h, t) :: flat_map Sidebar.entries shown.
Proof.
  reflexivity.
Qed.

Lemma renderItem_unfold (user : option User.t) (pathname : string)
    (openItems : gmap string bool) (item : SidebarItems.SidebarItem) (level : nat) :
  Sidebar.renderItem user pathname openItems item level =
    if negb (Sidebar.isVisible user item) then None
    else
      let hasChildren := (0 <? List.length (SidebarItems.children item))%nat in
      let childActive :=
        hasChildren
        && Js.some (fun child =>
                      Sidebar.isActive pathname (SidebarItems.href child) false)
             (SidebarItems.children item) in
      if hasChildren then
        let isOpen :=
          match openItems !! SidebarItems.href item with
          | Some b => b
          | None => childActive
          end in
        Some (Sidebar.GroupButton (SidebarItems.href item)
                (SidebarItems.title item) level isOpen childActive
                (if isOpen then
                   omap (fun child =>
                           Sidebar.renderItem user pathname openItems child (S level))
                     (SidebarItems.children item)
                 else []))
      else
        Some (Sidebar.LinkTo (SidebarItems.href item) (SidebarItems.title item)
                level (Sidebar.isActive pathname (SidebarItems.href item) false)).
Proof.
  destruct item as [h i t r cs b bc]. simpl.
  destruct (negb _); [done|].
  destruct (0 <? List.length cs)%nat; [|done]. simpl.
  by destruct (match openItems !! h with Some b0 => b0 | None => _ end).
Qed.

(** X7. The sidebar evaluates rules against an empty feature list, so a
    menu entry guarded by a feature rule, alone or inside a conjunction,
    is shown to nobody. *)
Theorem sidebar_feature_rules_never_visible (user : option User.t)
    (item : SidebarItems.SidebarItem) (feature : string)
    (rules : list SidebarRules.Rule) :
  SidebarRules.hasFeature feature ∈ rules ->
  (SidebarItems.rule item = Some (SidebarRules.hasFeature feature) ->
   Sidebar.isVisible user item = false) /\
  (SidebarItems.rule item = Some (SidebarRules.and rules) ->
   Sidebar.isVisible user item = false).
Proof.
  intros Hin. unfold Sidebar.isVisible. split; intros ->.
  - by destruct user.
  - destruct user as [u|]; [|done]. apply not_true_iff_false.
    intros Hall. simpl in Hall. rewrite every_forall in Hall.
    by specialize (Hall _ Hin).
Qed.

Lemma sidebar_feature_rules_never_visible_witness :
  Sidebar.isVisible (Some (Scenario.identity "owner" ["blog.view"] []))
    (SidebarItems.leaf "/beta" "Star" "Beta"
       (SidebarRules.and [SidebarRules.hasPermission "blog.view";
                          SidebarRules.hasFeature "beta"]))
  = false.
Proof.
  apply (sidebar_feature_rules_never_visible _ _ "beta"
           [SidebarRules.hasPermission "blog.view"; SidebarRules.hasFeature "beta"]).
  - right. by left.
  - reflexivity.
Defined.

(** X8. Without a user the menu is empty: every configured item carries
    a rule, and an item with a rule is hidden from a missing user,
    whatever the location and the open groups. *)
Theorem navigation_empty_without_user (pathname : string)
    (openItems : gmap string bool) :
  (forall (item : SidebarItems.SidebarItem) (level : nat),
     is_Some (SidebarItems.rule item) ->
     Sidebar.renderItem None pathname openItems item level = None) /\
  Sidebar.navigation None pathname openItems
  = [("Profile", []); ("Features", []); ("Account", [])].
Proof.
  split; [|reflexivity].
  intros item level [r Hrule]. rewrite renderItem_unfold.
  unfold Sidebar.isVisible. by rewrite Hrule.
Qed.

(** X9. Everything the sidebar shows for an item, at any depth, is the
    item itself or one of its descendants, and is visible to the user
    by its own rule: a failing rule is never bypassed by nesting. *)
Theorem rendered_entries_are_visible (user : option User.t) (pathname : string)
    (openItems : gmap string bool) (item : SidebarItems.SidebarItem) :
  forall (level : nat) (r : Sidebar.Rendered) (h t : string),
    Sidebar.renderItem user pathname openItems item level = Some r ->
    (h, t) ∈ Sidebar.entries r ->
    exists it, it ∈ SidebarItems.subitems item /\
               SidebarItems.href it = h /\ SidebarItems.title it = t /\
               Sidebar.isVisible user it = true.
Proof.
  induction item as [item IH] using SidebarItem_nested_ind.
  intros level r h t Hrender Hentry.
  rewrite renderItem_unfold in Hrender. rewrite subitems_unfold.
  destruct (Sidebar.isVisible user item) eqn:Hvis; [|done]. simpl in Hrender.
  destruct (0 <? List.length (SidebarItems.children item))%nat.
  - injection Hrender as <-. rewrite entries_group in Hentry.
    apply elem_of_cons in Hentry as [[= -> ->]|Hbelow].
    { exists item. split; [by left | done]. }
    apply list_elem_of_In, in_flat_map in Hbelow as (r' & Hr' & Hentry).
    apply list_elem_of_In in Hr', Hentry.
    destruct (match openItems !! SidebarItems.href item with
              | Some b => b
              | None => _
              end); [|by apply elem_of_nil in Hr'].
    apply list_elem_of_omap in Hr' as (child & Hchild & Hrender).
    rewrite Forall_forall in IH.
    destruct (IH child Hchild _ _ _ _ Hrender Hentry) as (it & Hit & Hprops).
    exists it. split; [|done]. right.
    apply list_elem_of_In, in_flat_map. exists child.
    split; by apply list_elem_of_In.
  - injection Hrender as <-. simpl in Hentry.
    apply list_elem_of_singleton in Hentry as [= -> ->].
    exists item. split; [by left | done].
Qed.

Lemma rendered_entries_are_visible_witness :
  exists it, it ∈ SidebarItems.subitems
                    (SidebarItems.leaf paths.users_list "Users" "Users"
                       (SidebarRules.hasRole "owner")) /\
             SidebarItems.href it = "/users/list" /\
             SidebarItems.title it = "Users" /\
             Sidebar.isVisible (Some (Scenario.identity "owner" [] [])) it = true.
Proof.
  apply (rendered_entries_are_visible
           (Some (Scenario.identity "owner" [] [])) "/" ∅
           (SidebarItems.leaf paths.users_list "Users" "Users"
              (SidebarRules.hasRole "owner"))
           0 (Sidebar.LinkTo "/users/list" "Users" 0 false)).
  - reflexivity.
  - by left.
Defined.

(** X10. A group without a stored open state follows its children: it
    is open exactly when one of them is the current page.  The first
    toggle always stores "open", so a group that is open because of an
    active child stays open on the first click and closes on the
    second. *)
Theorem first_toggle_always_opens (user : option User.t) (pathname : string)
    (openItems : gmap string bool) (item : SidebarItems.SidebarItem) (level : nat) :
  Sidebar.isVisible user item = true ->
  SidebarItems.children item <> [] ->
  openItems !! SidebarItems.href item = None ->
  let opened oi :=
    Sidebar.shownOpen (Sidebar.renderItem user pathname oi item level) in
  opened openItems
    = Some (Js.some (fun child =>
                       Sidebar.isActive pathname (SidebarItems.href child) false)
              (SidebarItems.children item)) /\
  opened (Sidebar.toggleItem (SidebarItems.href item) openItems) = Some true /\
  opened (Sidebar.toggleItem (SidebarItems.href item)
            (Sidebar.toggleItem (SidebarItems.href item) openItems))
    = Some false.
Proof.
  intros Hvis Hchildren Hunset opened. subst opened. simpl.
  rewrite !renderItem_unfold, Hvis. simpl.
  destruct (SidebarItems.children item) as [|c cs] eqn:Hcs; [done|].
  simpl. unfold Sidebar.toggleItem.
  rewrite Hunset, !lookup_insert_eq. simpl. done.
Qed.

Lemma first_toggle_always_opens_witness :
  Sidebar.shownOpen
    (Sidebar.renderItem (Some (Scenario.identity "master" ["blog.view"] []))
       "/categories"
       (Sidebar.toggleItem "/posts/list" ∅)
       (SidebarItems.group paths.posts_list "FileText" "Posts"
          (SidebarRules.hasPermission "blog.view")
          [SidebarItems.leaf paths.categories_list "List" "Categories"
             (SidebarRules.hasPermission "blog.view")])
       0)
  = Some true.
Proof.
  apply (first_toggle_always_opens
           (Some (Scenario.identity "master" ["blog.view"] [])) "/categories" ∅
           (SidebarItems.group paths.posts_list "FileText" "Posts"
              (SidebarRules.hasPermission "blog.view")
              [SidebarItems.leaf paths.categories_list "List" "Categories"
                 (SidebarRules.hasPermission "blog.view")])
           0).
  - reflexivity.
  - discriminate.
  - apply lookup_empty.
Defined.

(** * Further properties of the access guard *)





Lemma Secured_redirect_inv (props : Secured.SecuredProps) (w : AuthContext.World)
    (to : string) :
  Secured.Secured props (AuthContext.useAuth w) = Secured.Navigate to ->
  AuthContext.isLoading w = false /\
  ((to = paths.login_index /\ AuthContext.user w = None) \/
   (to = paths.dashboard_index /\ exists u, AuthContext.user w = Some u)).
Proof.
  destruct (AuthContext.isLoading w) eqn:Hl.
  { by rewrite Secured_loading. }
  rewrite (Secured_settled props _ Hl).
  unfold AuthContext.useAuth, Secured.RedirectToLogin, Secured.RedirectToHome,
    Secured.Allow, Secured.Forbidden; simpl.
  destruct (AuthContext.user w) as [u|]; simpl.
  - rewrite andb_false_r, andb_true_r.
    destruct (bool_decide _).
    + intros [= <-]. split; [done|]. right. split; [done | by exists u].
    + destruct (Secured.permissions props) as [[|p ps]|]; try done.
      by destruct (_ || _).
  - rewrite andb_true_r, andb_false_r.
    destruct (bool_decide _).
    + intros [= <-]. split; [done|]. by left.
    + by destruct (Secured.permissions props) as [[|p ps]|].
Qed.

(** X12. The two redirects cannot chase each other: in the session
    state in which the guard sends a visitor to the login page, the
    login route lets the visitor in, and in the state in which it sends
    a user home, the home route lets the user in. *)
Theorem redirect_targets_admit (props : Secured.SecuredProps)
    (w : AuthContext.World) (target : Routes.RouteConfig) :
  target ∈ Routes.allRoutes ->
  (Secured.Secured props (AuthContext.useAuth w) = Secured.RedirectToLogin ->
   Routes.path target = paths.login_index ->
   Secured.Secured (Routes.securedProps target) (AuthContext.useAuth w)
   = Secured.Allow) /\
  (Secured.Secured props (AuthContext.useAuth w) = Secured.RedirectToHome ->
   Routes.path target = paths.dashboard_index ->
   Secured.Secured (Routes.securedProps target) (AuthContext.useAuth w)
   = Secured.Allow).
Proof.
  intros Htarget.
  split; intros [Hl [[Hto Hu]|[Hto [u Hu]]]]%Secured_redirect_inv Hpath;
    try discriminate Hto;
    (repeat (apply elem_of_cons in Htarget as [->|Htarget];
             [try discriminate Hpath|]); [|by apply elem_of_nil in Htarget]);
    unfold Secured.Secured; simpl; by rewrite Hl, Hu.
Qed.

Lemma redirect_targets_admit_witness :
  Secured.Secured
    (Routes.securedProps (Routes.route paths.login_index "LoginPage" false None))
    (AuthContext.useAuth Scenario.signedOut)
  = Secured.Allow.
Proof.
  destruct (redirect_targets_admit
              (Scenario.route (Some true) None) Scenario.signedOut
              (Routes.route paths.login_index "LoginPage" false None))
    as [Hlogin _].
  - do 11 right. by left.
  - apply Hlogin; reflexivity.
Defined.

Lemma held_admits (u : User.t) (w : AuthContext.World) (r : Routes.RouteConfig)
    (T : string) :
  AuthContext.isLoading w = false ->
  AuthContext.user w = Some u ->
  Routes.authenticated r = Some true ->
  Routes.permissions r = Some [T] ->
  Js.endsWith T ".*" = false ->
  SidebarRules.matchPermission (User.permissions u) T = true ->
  Secured.Secured (Routes.securedProps r) (AuthContext.useAuth w) = Secured.Allow.
Proof.
  intros Hl Hu Hauth Hperm Hend Hheld.
  apply matchPermission_exact, includes_elem_of in Hheld; [|done].
  unfold Secured.Secured. simpl. by rewrite Hl, Hu, Hauth, Hperm; simpl; rewrite Hheld.
Qed.

(** X13. The menu and the route table agree: whenever the sidebar shows
    a signed-in user an entry whose target is a configured route, the
    guard of that route lets the user in. *)
Theorem visible_links_are_admitted (u : User.t) (w : AuthContext.World)
    (item : SidebarItems.SidebarItem) (r : Routes.RouteConfig) :
  AuthContext.sessionState w = AuthContext.Authenticated u ->
  item ∈ SidebarItems.allItems ->
  r ∈ Routes.allRoutes ->
  Routes.path r = SidebarItems.href item ->
  Sidebar.isVisible (Some u) item = true ->
  Secured.Secured (Routes.securedProps r) (AuthContext.useAuth w) = Secured.Allow.
Proof.
  intros [Hl Hu]%sessionState_Authenticated Hitem Hroute Hpath Hvis.
  unfold SidebarItems.allItems, SidebarItems.navItems, SidebarItems.profile,
    SidebarItems.features, SidebarItems.account in Hitem.
  cbn [flat_map SidebarItems.pages SidebarItems.subitems SidebarItems.children
       SidebarItems.leaf SidebarItems.group app] in Hitem.
  repeat (apply elem_of_cons in Hroute as [->|Hroute];
          [|try (by apply elem_of_nil in Hroute)]);
    (repeat (apply elem_of_cons in Hitem as [->|Hitem];
             [try discriminate Hpath|try (by apply elem_of_nil in Hitem)]));
    try (unfold Secured.Secured; simpl; by rewrite Hl, Hu);
    (eapply (held_admits u w); [done|done|reflexivity|reflexivity|reflexivity|]);
    unfold Sidebar.isVisible in Hvis; simpl in Hvis;
    rewrite ?andb_true_r in Hvis; exact Hvis.
Qed.

Lemma visible_links_are_admitted_witness :
  Secured.Secured
    (Routes.securedProps
       (Routes.route paths.users_create "DashboardPage" true (Some ["user.create"])))
    (AuthContext.useAuth
       (Scenario.signedIn (Scenario.identity "master" ["user.read"; "user.create"] [])))
  = Secured.Allow.
Proof.
  apply (visible_links_are_admitted
           (Scenario.identity "master" ["user.read"; "user.create"] []) _
           (SidebarItems.leaf paths.users_create "Users" "Create User"
              (SidebarRules.hasPermission "user.create"))).
  - reflexivity.
  - do 10 right. by left.
  - do 6 right. by left.
  - reflexivity.
  - reflexivity.
Defined.

(** * Further properties of the session manager *)

Lemma other_status_logged (status : option nat) :
  status <> Some 401%nat ->
  match status with
  | Some 401%nat => Eff.ret tt
  | _ => AuthContext.emit (AuthContext.ConsoleError "Session verification failed:")
  end
  = AuthContext.emit (AuthContext.ConsoleError "Session verification failed:").
Proof.
  intros Hne. destruct status as [n|]; [|done].
  do 401 (destruct n as [|n]; [reflexivity|]). destruct n; [done | reflexivity].
Qed.

(** What [verifySession] leaves behind when no identity is held. *)
Lemma verifySession_anonymous (api : AuthContext.ApiClient) (w : AuthContext.World) :
  AuthContext.user w = None ->
  Eff.exec (AuthContext.verifySession api) w =
    {| AuthContext.user :=
         match AuthContext.get_me api with
         | Js.Fulfilled (Some d) => if Js.truthy (User.id d) then Some d else None
         | _ => None
         end;
       AuthContext.isLoading := false;
       AuthContext.log :=
         AuthContext.log w ++ AuthContext.HttpGet urls.auth_me ::
         match AuthContext.get_me api with
         | Js.Rejected (AuthContext.AxiosError status _ _ _) =>
             if bool_decide (status = Some 401%nat) then []
             else [AuthContext.ConsoleError "Session verification failed:"]
         | _ => []
         end |}.
Proof.
  intros Hu. unfold AuthContext.verifySession, Eff.exec, Eff.bind, Eff.gets.
  rewrite Hu. simpl.
  destruct (AuthContext.get_me api) as [[d|]|[status dm de m|]]; simpl; try done.
  - by destruct (Js.truthy (User.id d)).
  - destruct (decide (status = Some 401%nat)) as [->|Hne]; [done|].
    rewrite (other_status_logged status Hne), bool_decide_eq_false_2 by done.
    simpl. by rewrite <- app_assoc.
Qed.

(** X14. A successful login stores the identity the backend returned
    with the one sign-in request it made: no verification request
    follows, and the loading flag is left alone. *)
Theorem login_stores_identity (api : AuthContext.ApiClient) (w : AuthContext.World)
    (u : User.t) :
  AuthContext.post_signIn api = Js.Fulfilled (Js.Data u) ->
  AuthContext.login api w =
    AuthContext.Ended (Js.Fulfilled true)
      {| AuthContext.user := Some u;
         AuthContext.isLoading := AuthContext.isLoading w;
         AuthContext.log :=
           AuthContext.log w ++ [AuthContext.HttpPost urls.auth_signIn] |}.
Proof.
  intros Hok. unfold AuthContext.login. by rewrite Hok.
Qed.

Lemma login_stores_identity_witness :
  AuthContext.login
    (Scenario.serving (Scenario.identity "owner" ["blog.view"] []))
    Scenario.signedOut
  = AuthContext.Ended (Js.Fulfilled true)
      {| AuthContext.user := Some (Scenario.identity "owner" ["blog.view"] []);
         AuthContext.isLoading := false;
         AuthContext.log := [AuthContext.HttpPost "/auth/sign-in"] |}.
Proof.
  apply (login_stores_identity
           (Scenario.serving (Scenario.identity "owner" ["blog.view"] []))
           Scenario.signedOut).
  reflexivity.
Defined.

(** X15. A failed login leaves identity and loading flag as they were
    and is reported with a message that is never empty: the message of
    the response body if it has a non-empty one, else its error member,
    else the error's own message, else a fixed text. *)
Theorem login_failure_reports (api : AuthContext.ApiClient) (w : AuthContext.World)
    (e : AuthContext.Thrown) :
  AuthContext.post_signIn api = Js.Rejected e ->
  let blank (o : option string) := o = None \/ o = Some "" in
  exists (msg : string) (w' : AuthContext.World),
    AuthContext.login api w = AuthContext.Ended (Js.Rejected msg) w' /\
    AuthContext.user w' = AuthContext.user w /\
    AuthContext.isLoading w' = AuthContext.isLoading w /\
    msg <> "" /\
    (forall status dm de m,
       e = AuthContext.AxiosError status dm de m ->
       (~ blank dm -> dm = Some msg) /\
       (blank dm -> ~ blank de -> de = Some msg) /\
       (blank dm -> blank de -> m <> "" -> msg = m) /\
       (blank dm -> blank de -> m = "" -> msg = "Invalid email or password")).
Proof.
  intros Hfail blank. subst blank.
  unfold AuthContext.login. rewrite Hfail.
  destruct e as [status dm de m|]; simpl.
  - eexists _, _. split; [reflexivity|]. split; [done|]. split; [done|].
    destruct dm as [[|ca a]|], de as [[|cb b]|], m as [|cm m]; simpl;
      (split; [discriminate|]);
      intros ? ? ? ? [= <- <- <- <-];
      repeat split; intros; intuition (congruence || discriminate).
  - eexists _, _. split; [reflexivity|]. split; [done|]. split; [done|].
    split; [done|]. intros ? ? ? ? [=].
Qed.

Lemma login_failure_reports_witness :
  exists (msg : string) (w' : AuthContext.World),
    AuthContext.login Scenario.offline
      (Scenario.signedIn (Scenario.identity "owner" [] []))
    = AuthContext.Ended (Js.Rejected msg) w' /\
    AuthContext.user w' = Some (Scenario.identity "owner" [] []).
Proof.
  destruct (login_failure_reports Scenario.offline
              (Scenario.signedIn (Scenario.identity "owner" [] []))
              Scenario.networkError) as (msg & w' & Hlogin & Hkept & _).
  - reflexivity.
  - exists msg, w'. split; [exact Hlogin | exact Hkept].
Defined.

(** X16. Verification without a held identity fails closed.  It makes
    one request, always ends with the loading flag settled, and ends
    with an identity only when the request succeeded with a body whose
    id is non-empty; an empty body, a body without id and every kind of
    failure end anonymous. *)
Theorem verifySession_fail_closed (api : AuthContext.ApiClient)
    (w : AuthContext.World) :
  AuthContext.user w = None ->
  let w' := Eff.exec (AuthContext.verifySession api) w in
  AuthContext.isLoading w' = false /\
  (forall d, AuthContext.user w' = Some d <->
             AuthContext.get_me api = Js.Fulfilled (Some d) /\ User.id d <> "") /\
  exists effects,
    AuthContext.log w' = (AuthContext.log w ++ effects)%list /\
    filter (fun e => AuthContext.isRequest e = true) effects
    = [AuthContext.HttpGet urls.auth_me].
Proof.
  intros Hu w'. subst w'. rewrite (verifySession_anonymous api w Hu). simpl.
  split; [done|]. split.
  - intros d. destruct (AuthContext.get_me api) as [[d'|]|[status dm de m|]];
      try (split; [done | by intros [[=] _]]).
    unfold Js.truthy. destruct (String.eqb_spec (User.id d') "") as [Hid|Hid]; simpl.
    + split; [done|]. intros [[= ->] Hne]. done.
    + split; [intros [= ->]; done | by intros [[= ->] _]].
  - eexists. split; [reflexivity|].
    destruct (AuthContext.get_me api) as [[d'|]|[status dm de m|]]; try done.
    by destruct (bool_decide _).
Qed.

Lemma verifySession_fail_closed_witness :
  AuthContext.sessionState
    (Eff.exec (AuthContext.verifySession Scenario.offline) AuthContext.initial)
  = AuthContext.Anonymous.
Proof.
  destruct (verifySession_fail_closed Scenario.offline AuthContext.initial)
    as (Hsettled & Hidentity & _); [reflexivity|].
  apply sessionState_Anonymous. split; [exact Hsettled|].
  destruct (AuthContext.user _) as [d|]; [|reflexivity].
  destruct (Hidentity d) as [Hrestored _].
  destruct (Hrestored eq_refl) as [Hbody _]. discriminate Hbody.
Defined.

(** X17. A verification that fails with status 401 writes nothing to the
    console; a failure with any other status, or without a response,
    is logged once. *)
Theorem unauthorized_is_not_logged (api : AuthContext.ApiClient)
    (w : AuthContext.World) (status : option nat) (dm de : option string)
    (m : string) :
  AuthContext.user w = None ->
  AuthContext.get_me api = Js.Rejected (AuthContext.AxiosError status dm de m) ->
  let w' := Eff.exec (AuthContext.verifySession api) w in
  (status = Some 401%nat ->
   AuthContext.log w' = (AuthContext.log w ++ [AuthContext.HttpGet urls.auth_me])%list) /\
  (status <> Some 401%nat ->
   AuthContext.log w' =
     (AuthContext.log w
      ++ [AuthContext.HttpGet urls.auth_me;
          AuthContext.ConsoleError "Session verification failed:"])%list).
Proof.
  intros Hu Hfail w'. subst w'.
  rewrite (verifySession_anonymous api w Hu), Hfail. simpl.
  split; intros Hstatus.
  - by rewrite bool_decide_eq_true_2.
  - by rewrite bool_decide_eq_false_2.
Qed.

Lemma unauthorized_is_not_logged_witness :
  AuthContext.log
    (Eff.exec (AuthContext.verifySession Scenario.offline) AuthContext.initial)
  = [AuthContext.HttpGet "/auth/me";
     AuthContext.ConsoleError "Session verification failed:"].
Proof.
  destruct (unauthorized_is_not_logged Scenario.offline AuthContext.initial
              None None None "Network Error") as [_ Hlogged].
  - reflexivity.
  - reflexivity.
  - apply Hlogged. discriminate.
Defined.

(** X18. On mount the backend is contacted unless the page is exactly
    "/login": for every other path, "/login/" and "/Login" included, the
    session request goes out. *)
Theorem mount_verifies_unless_login (pathname : string)
    (api : AuthContext.ApiClient) :
  AuthContext.log (Eff.exec (AuthContext.onMount pathname api) AuthContext.initial)
  = [] <-> pathname = "/login".
Proof.
  unfold AuthContext.onMount.
  destruct (String.eqb_spec pathname "/login") as [->|Hne].
  - done.
  - rewrite verifySession_anonymous by done. simpl. split; [discriminate | done].
Qed.



(** X20. No function of the context makes more than one request per
    call: a login is not followed by a verification, a refresh fetches
    once. *)
Theorem one_request_per_call (call : AuthContext.Call)
    (api : AuthContext.ApiClient) (w : AuthContext.World) :
  exists effects,
    AuthContext.effects (AuthContext.perform call api w)
    = (AuthContext.log w ++ effects)%list /\
    (List.length (filter (fun e => AuthContext.isRequest e = true) effects) <= 1)%nat.
Proof.
  destruct call; simpl.
  - unfold AuthContext.ended.
    destruct (AuthContext.user w) as [u|] eqn:Hu.
    + pose proof (verifySession_held api w u Hu) as Hrun. unfold Eff.exec in Hrun.
      destruct (AuthContext.verifySession api w) as [[] w']. simpl in *. subst w'.
      exists []. simpl. split; [by rewrite app_nil_r | lia].
    + pose proof (verifySession_anonymous api w Hu) as Hrun. unfold Eff.exec in Hrun.
      destruct (AuthContext.verifySession api w) as [[] w']. simpl in *. subst w'.
      simpl. eexists. split; [reflexivity|].
      destruct (AuthContext.get_me api) as [[d|]|[status dm de m|]];
        try (simpl; lia).
      destruct (bool_decide _); simpl; lia.
  - unfold AuthContext.login, AuthContext.ended, Eff.exec, Eff.bind.
    destruct (AuthContext.post_signIn api) as [[d| |]|[status dm de m|]]; simpl;
      eexists; (split; [rewrite <- ?app_assoc; reflexivity | simpl; lia]).
  - unfold AuthContext.logout, AuthContext.ended, Eff.exec, Eff.bind.
    destruct (AuthContext.post_signOut api); simpl;
      eexists; (split; [rewrite <- ?app_assoc; reflexivity | simpl; lia]).
  - unfold AuthContext.refreshUser, AuthContext.ended, Eff.exec, Eff.bind.
    destruct (AuthContext.user w) as [u|]; simpl;
      [destruct (Js.truthy (User.id u)); simpl;
       [destruct (AuthContext.get_user api (User.id u)) as [[d| |]|]; simpl|]|];
      eexists; (split; [rewrite <- ?app_assoc; reflexivity | simpl; lia]).
  - exists []. simpl. split; [by rewrite app_nil_r | lia].
Qed.

(** * Further properties of the tenant selector *)

(** The outcome of a resolution for a role that browses tenants, once
    the list has arrived, written out as a function of what the run
    found: the selection in the closure, the persisted entry, the first
    membership and the list. *)
Lemma fetchCompanies_listed (getTime : string -> Js.number)
    (svc : CompanyContext.CompanyService) (u : User.t) (c : UserCompany.t)
    (rest : list UserCompany.t) (fetched : list Company.t)
    (closure : option Company.t) (w : CompanyContext.World) :
  User.role u <> "team_member" ->
  User.companies u = c :: rest ->
  UserCompany.id c <> "" ->
  CompanyContext.list_ svc = Js.Fulfilled fetched ->
  let key := CompanyContext.SELECTED_COMPANY_STORAGE_KEY in
  let byId i := Js.find (fun x => String.eqb (Company.id x) i) fetched in
  let settled sel storage effects :=
    {| CompanyContext.companies := fetched;
       CompanyContext.selectedCompany := sel;
       CompanyContext.isLoading := false;
       CompanyContext.localStorage := storage;
       CompanyContext.log := effects |} in
  let read :=
    ((CompanyContext.log w ++ [CompanyContext.CallList])
       ++ [CompanyContext.GetItem key])%list in
  let useDefault storage effects :=
    match match byId (UserCompany.id c) with
          | Some d => Some d
          | None => if (0 <? List.length fetched)%nat
                    then head (CompanyContext.sortByCreatedAt getTime fetched)
                    else None
          end with
    | Some d =>
        settled (Some d) (<[key := Company.id d]> storage)
          (effects ++ [CompanyContext.SetItem key (Company.id d)])%list
    | None => settled (CompanyContext.selectedCompany w) storage effects
    end in
  let restore :=
    match CompanyContext.localStorage w !! key with
    | Some saved =>
        if Js.truthy saved && negb (String.eqb (Js.trim saved) "") then
          match byId (Js.trim saved) with
          | Some savedCompany =>
              settled (Some savedCompany)
                (<[key := Company.id savedCompany]> (CompanyContext.localStorage w))
                (read ++ [CompanyContext.SetItem key (Company.id savedCompany)])%list
          | None =>
              useDefault (delete key (CompanyContext.localStorage w))
                (read ++ [CompanyContext.RemoveItem key])%list
          end
        else useDefault (CompanyContext.localStorage w) read
    | None => useDefault (CompanyContext.localStorage w) read
    end in
  Eff.exec (CompanyContext.fetchCompanies getTime svc (Some u) closure) w =
    match closure with
    | Some current =>
        match byId (Company.id current) with
        | Some _ =>
            settled (CompanyContext.selectedCompany w)
              (<[key := Company.id current]> (CompanyContext.localStorage w))
              (read ++ [CompanyContext.SetItem key (Company.id current)])%list
        | None => restore
        end
    | None => restore
    end.
Proof.
  intros Hrole%role_eqb_other Hcs Htruthy%truthy_nonempty Hlist.
  intros key byId settled read useDefault restore.
  subst restore useDefault read settled byId key.
  run_provider. rewrite Hcs, Htruthy, Hrole. run_provider. rewrite Hlist.
  run_provider.
  destruct closure as [current|];
    [destruct (Js.find _ fetched) as [kept|] eqn:Hkept; [reflexivity|]|];
    (destruct (CompanyContext.localStorage w
               !! CompanyContext.SELECTED_COMPANY_STORAGE_KEY) as [saved|];
     [destruct (Js.truthy saved); simpl;
      [destruct (String.eqb (Js.trim saved) ""); simpl;
       [|destruct (Js.find (fun x => String.eqb (Company.id x) (Js.trim saved))
                    fetched) as [savedCompany|]; [reflexivity|]]|]|]);
    (destruct (Js.find (fun x => String.eqb (Company.id x) (UserCompany.id c))
                 fetched) as [d|];
     [reflexivity|];
     destruct (0 <? List.length fetched)%nat; [|reflexivity];
     by destruct (head (CompanyContext.sortByCreatedAt getTime fetched))).
Qed.

Lemma onUserChange_signed_in (getTime : string -> Js.number)
    (svc : CompanyContext.CompanyService) (u : User.t) (w : CompanyContext.World) :
  Eff.exec (CompanyContext.onUserChange getTime svc (Some u) false) w
  = Eff.exec (CompanyContext.fetchCompanies getTime svc (Some u)
                (CompanyContext.selectedCompany w)) w.
Proof. reflexivity. Qed.

Lemma onUserChange_loading (getTime : string -> Js.number)
    (svc : CompanyContext.CompanyService) (user : option User.t)
    (w : CompanyContext.World) :
  Eff.exec (CompanyContext.onUserChange getTime svc user true) w = w.
Proof. reflexivity. Qed.



(** X22. The selection survives a reload.  After the user picked a
    tenant, a fresh provider over the same storage (its effect running
    first while authentication loads, then with the user restored)
    selects the listed tenant with the picked id again and keeps the
    entry, provided the id is non-empty and has no surrounding white
    space. *)
Theorem selection_survives_reload (getTime : string -> Js.number)
    (svc : CompanyContext.CompanyService) (u : User.t) (m : UserCompany.t)
    (rest : list UserCompany.t) (fetched : list Company.t)
    (picked listed : Company.t) (w : CompanyContext.World) :
  User.role u <> "team_member" ->
  User.companies u = m :: rest ->
  UserCompany.id m <> "" ->
  CompanyContext.list_ svc = Js.Fulfilled fetched ->
  Company.id picked <> "" ->
  Js.trim (Company.id picked) = Company.id picked ->
  Js.find (fun x => String.eqb (Company.id x) (Company.id picked)) fetched
    = Some listed ->
  let key := CompanyContext.SELECTED_COMPANY_STORAGE_KEY in
  let reloaded :=
    {| CompanyContext.companies := [];
       CompanyContext.selectedCompany := None;
       CompanyContext.isLoading := true;
       CompanyContext.localStorage :=
         CompanyContext.localStorage
           (Eff.exec (CompanyContext.setSelectedCompany (Some picked)) w);
       CompanyContext.log := [] |} in
  let restored :=
    Eff.exec (CompanyContext.onUserChange getTime svc (Some u) false)
      (Eff.exec (CompanyContext.onUserChange getTime svc None true) reloaded) in
  CompanyContext.selectedCompany restored = Some listed /\
  Company.id listed = Company.id picked /\
  CompanyContext.localStorage restored !! key = Some (Company.id picked) /\
  CompanyContext.log restored =
    [CompanyContext.CallList; CompanyContext.GetItem key;
     CompanyContext.SetItem key (Company.id picked)].
Proof.
  intros Hrole Hcs Hm Hlist Hid Htrim Hfind key reloaded restored.
  pose proof (find_by_id_id _ _ _ Hfind) as Hsame.
  subst restored. rewrite onUserChange_loading, onUserChange_signed_in.
  rewrite (fetchCompanies_listed getTime svc u m rest fetched _ reloaded
             Hrole Hcs Hm Hlist).
  subst reloaded. simpl. rewrite lookup_insert_eq.
  rewrite (truthy_nonempty _ Hid), Htrim.
  apply String.eqb_neq in Hid. rewrite Hid. simpl. rewrite Hfind. simpl.
  rewrite lookup_insert_eq, Hsame. done.
Qed.

Lemma selection_survives_reload_witness :
  Company.id <$>
    CompanyContext.selectedCompany
      (Eff.exec
         (CompanyContext.onUserChange Scenario.parseStamp
            (Scenario.listing [Scenario.tenantA; Scenario.tenantB])
            (Some (Scenario.identity "owner" [] [Scenario.membership "b"])) false)
         (Scenario.freshTab
            (CompanyContext.localStorage
               (Eff.exec (CompanyContext.setSelectedCompany (Some Scenario.tenantA))
                  (Scenario.freshTab ∅)))))
  = Some "a".
Proof.
  destruct (selection_survives_reload Scenario.parseStamp
              (Scenario.listing [Scenario.tenantA; Scenario.tenantB])
              (Scenario.identity "owner" [] [Scenario.membership "b"])
              (Scenario.membership "b") []
              [Scenario.tenantA; Scenario.tenantB]
              Scenario.tenantA Scenario.tenantA (Scenario.freshTab ∅))
    as (Hselected & _).
  - discriminate.
  - reflexivity.
  - discriminate.
  - reflexivity.
  - discriminate.
  - reflexivity.
  - reflexivity.
  - exact (f_equal (fmap Company.id) Hselected).
Defined.

(** X23. A refresh keeps the current selection when its id is still in
    the fetched list, whatever is persisted: the selected record is left
    as it is (it is not replaced by the listed one), only the list is
    updated and the selection's id is written to storage. *)
Theorem refresh_keeps_listed_selection (getTime : string -> Js.number)
    (svc : CompanyContext.CompanyService) (u : User.t) (c : UserCompany.t)
    (rest : list UserCompany.t) (fetched : list Company.t)
    (current listed : Company.t) (w : CompanyContext.World) :
  User.role u <> "team_member" ->
  User.companies u = c :: rest ->
  UserCompany.id c <> "" ->
  CompanyContext.list_ svc = Js.Fulfilled fetched ->
  CompanyContext.selectedCompany w = Some current ->
  Js.find (fun x => String.eqb (Company.id x) (Company.id current)) fetched
    = Some listed ->
  let w' := Eff.exec (CompanyContext.refreshCompanies getTime svc (Some u)) w in
  CompanyContext.selectedCompany w' = Some current /\
  CompanyContext.companies w' = fetched /\
  CompanyContext.isLoading w' = false /\
  CompanyContext.localStorage w' =
    <[CompanyContext.SELECTED_COMPANY_STORAGE_KEY := Company.id current]>
      (CompanyContext.localStorage w).
Proof.
  intros Hrole Hcs Hc Hlist Hsel Hfind w'. subst w'.
  change (Eff.exec (CompanyContext.refreshCompanies getTime svc (Some u)) w)
    with (Eff.exec (CompanyContext.fetchCompanies getTime svc (Some u)
                      (CompanyContext.selectedCompany w)) w).
  rewrite (fetchCompanies_listed getTime svc u c rest fetched _ w Hrole Hcs Hc Hlist).
  rewrite Hsel. simpl. rewrite Hfind. done.
Qed.

Lemma refresh_keeps_listed_selection_witness :
  CompanyContext.selectedCompany
    (Eff.exec
       (CompanyContext.refreshCompanies Scenario.parseStamp
          (Scenario.listing [Scenario.tenantA; Scenario.tenant "b" "2025-05-05"])
          (Some (Scenario.identity "owner" [] [Scenario.membership "a"])))
       (Eff.exec (CompanyContext.setSelectedCompany (Some Scenario.tenantB))
          (Scenario.freshTab ∅)))
  = Some Scenario.tenantB.
Proof.
  apply (refresh_keeps_listed_selection Scenario.parseStamp
           (Scenario.listing [Scenario.tenantA; Scenario.tenant "b" "2025-05-05"])
           (Scenario.identity "owner" [] [Scenario.membership "a"])
           (Scenario.membership "a") []
           [Scenario.tenantA; Scenario.tenant "b" "2025-05-05"]
           Scenario.tenantB (Scenario.tenant "b" "2025-05-05")).
  - discriminate.
  - reflexivity.
  - discriminate.
  - reflexivity.
  - reflexivity.
  - reflexivity.
Defined.

Lemma fetchCompanies_unlisted (getTime : string -> Js.number)
    (svc : CompanyContext.CompanyService) (u : User.t) (c : UserCompany.t)
    (rest : list UserCompany.t) (closure : option Company.t)
    (w : CompanyContext.World) :
  User.role u <> "team_member" ->
  User.companies u = c :: rest ->
  UserCompany.id c <> "" ->
  CompanyContext.list_ svc = Js.Rejected tt ->
  Eff.exec (CompanyContext.fetchCompanies getTime svc (Some u) closure) w =
    {| CompanyContext.companies := [CompanyContext.fallbackCompany u c];
       CompanyContext.selectedCompany := Some (CompanyContext.fallbackCompany u c);
       CompanyContext.isLoading := false;
       CompanyContext.localStorage := CompanyContext.localStorage w;
       CompanyContext.log :=
         CompanyContext.log w
         ++ [CompanyContext.CallList;
             CompanyContext.ConsoleError "Failed to fetch companies:"] |}.
Proof.
  intros Hrole%role_eqb_other Hcs Htruthy%truthy_nonempty Hlist.
  run_provider. rewrite Hcs, Htruthy, Hrole. run_provider. rewrite Hlist.
  run_provider. by rewrite <- app_assoc.
Qed.

Lemma fetchCompanies_without_membership (getTime : string -> Js.number)
    (svc : CompanyContext.CompanyService) (u : User.t)
    (closure : option Company.t) (w : CompanyContext.World) :
  (User.companies u = [] \/
   exists c rest, User.companies u = c :: rest /\ UserCompany.id c = "") ->
  Eff.exec (CompanyContext.fetchCompanies getTime svc (Some u) closure) w =
    {| CompanyContext.companies := [];
       CompanyContext.selectedCompany := None;
       CompanyContext.isLoading := false;
       CompanyContext.localStorage := CompanyContext.localStorage w;
       CompanyContext.log := CompanyContext.log w |}.
Proof.
  intros [Hcs|(c & rest & Hcs & Hid)]; run_provider; rewrite Hcs; [done|].
  by rewrite Hid.
Qed.

(** X24. When the list request fails for a role that browses tenants,
    the tenant of the first membership is shown as a minimal record
    (id, name and logo of the membership, no creation stamp), but,
    unlike for a team member, storage is neither read nor written: the
    stand-in is not remembered. *)
Theorem list_failure_falls_back_unpersisted (getTime : string -> Js.number)
    (svc : CompanyContext.CompanyService) (u : User.t) (c : UserCompany.t)
    (rest : list UserCompany.t) (closure : option Company.t)
    (w : CompanyContext.World) :
  User.role u <> "team_member" ->
  User.companies u = c :: rest ->
  UserCompany.id c <> "" ->
  CompanyContext.list_ svc = Js.Rejected tt ->
  let w' := Eff.exec (CompanyContext.fetchCompanies getTime svc (Some u) closure) w in
  (exists standIn,
     CompanyContext.selectedCompany w' = Some standIn /\
     CompanyContext.companies w' = [standIn] /\
     Company.id standIn = UserCompany.id c /\
     Company.name standIn = UserCompany.name c /\
     Company.created_at standIn = "") /\
  CompanyContext.isLoading w' = false /\
  CompanyContext.localStorage w' = CompanyContext.localStorage w /\
  CompanyContext.log w' =
    (CompanyContext.log w
     ++ [CompanyContext.CallList;
         CompanyContext.ConsoleError "Failed to fetch companies:"])%list.
Proof.
  intros Hrole Hcs Hc Hlist w'. subst w'.
  rewrite (fetchCompanies_unlisted getTime svc u c rest closure w Hrole Hcs Hc Hlist).
  split; [|done]. by exists (CompanyContext.fallbackCompany u c).
Qed.

Lemma list_failure_falls_back_unpersisted_witness :
  CompanyContext.localStorage
    (Eff.exec
       (CompanyContext.fetchCompanies Scenario.parseStamp Examples.unreachable
          (Some (Scenario.identity "owner" [] [Scenario.membership "b"])) None)
       (Scenario.freshTab ∅))
  = ∅.
Proof.
  destruct (list_failure_falls_back_unpersisted Scenario.parseStamp
              Examples.unreachable
              (Scenario.identity "owner" [] [Scenario.membership "b"])
              (Scenario.membership "b") [] None (Scenario.freshTab ∅))
    as (_ & _ & Hstorage & _).
  - discriminate.
  - reflexivity.
  - discriminate.
  - reflexivity.
  - exact Hstorage.
Defined.

(** X25. An identity without memberships (or whose first membership has
    an empty id) gets no tenant, whatever its role and whatever the
    backend would list: the state is emptied and settled without any
    request and without touching storage, so an entry persisted earlier
    stays where it is. *)
Theorem no_membership_no_resolution (getTime : string -> Js.number)
    (svc : CompanyContext.CompanyService) (u : User.t)
    (closure : option Company.t) (w : CompanyContext.World) :
  (User.companies u = [] \/
   exists c rest, User.companies u = c :: rest /\ UserCompany.id c = "") ->
  let w' := Eff.exec (CompanyContext.fetchCompanies getTime svc (Some u) closure) w in
  CompanyContext.selectedCompany w' = None /\
  CompanyContext.companies w' = [] /\
  CompanyContext.isLoading w' = false /\
  CompanyContext.localStorage w' = CompanyContext.localStorage w /\
  CompanyContext.log w' = CompanyContext.log w.
Proof.
  intros Hnone w'. subst w'.
  by rewrite (fetchCompanies_without_membership getTime svc u closure w Hnone).
Qed.

Lemma no_membership_no_resolution_witness :
  CompanyContext.localStorage
    (Eff.exec
       (CompanyContext.fetchCompanies Scenario.parseStamp
          (Scenario.listing [Scenario.tenantA])
          (Some (Scenario.identity "owner" [] [])) None)
       (Scenario.freshTab {[ CompanyContext.SELECTED_COMPANY_STORAGE_KEY := "gone" ]}))
  = {[ CompanyContext.SELECTED_COMPANY_STORAGE_KEY := "gone" ]}.
Proof.
  destruct (no_membership_no_resolution Scenario.parseStamp
              (Scenario.listing [Scenario.tenantA])
              (Scenario.identity "owner" [] []) None
              (Scenario.freshTab
                 {[ CompanyContext.SELECTED_COMPANY_STORAGE_KEY := "gone" ]}))
    as (_ & _ & _ & Hstorage & _).
  - by left.
  - exact Hstorage.
Defined.

(** X26. Every run of the resolution, whatever the user, the closure,
    the backend and the storage, ends with the loading flag settled and
    leaves every storage entry other than the selector's own key as it
    was. *)
Theorem fetchCompanies_settles_and_owns_one_key (getTime : string -> Js.number)
    (svc : CompanyContext.CompanyService) (user : option User.t)
    (closure : option Company.t) (w : CompanyContext.World) :
  let w' := Eff.exec (CompanyContext.fetchCompanies getTime svc user closure) w in
  CompanyContext.isLoading w' = false /\
  forall k, k <> CompanyContext.SELECTED_COMPANY_STORAGE_KEY ->
            CompanyContext.localStorage w' !! k = CompanyContext.localStorage w !! k.
Proof.
  intros w'. subst w'.
  destruct user as [u|]; [|done].
  destruct (User.companies u) as [|c rest] eqn:Hcs.
  { rewrite fetchCompanies_without_membership by (by left). done. }
  destruct (decide (UserCompany.id c = "")) as [Hid|Hid].
  { rewrite fetchCompanies_without_membership by (right; by exists c, rest). done. }
  destruct (decide (User.role u = "team_member")) as [Hrole|Hrole].
  - pose proof (truthy_nonempty _ Hid) as Htruthy.
    run_provider. rewrite Hcs, Htruthy, Hrole.
    change ("team_member" =? "team_member") with true. run_provider.
    destruct (CompanyContext.get svc (UserCompany.id c)); run_provider;
      (split; [done|]); intros k Hk; by rewrite lookup_insert_ne.
  - destruct (CompanyContext.list_ svc) as [fetched|[]] eqn:Hlist.
    + rewrite (fetchCompanies_listed getTime svc u c rest fetched closure w
                 Hrole Hcs Hid Hlist).
      repeat match goal with
             | |- context [match ?x with _ => _ end] =>
                 match type of x with
                 | option _ => destruct x
                 | bool => destruct x
                 end
             end; simpl;
        (split; [done|]); intros k Hk;
        rewrite ?lookup_insert_ne, ?lookup_delete_ne by done; done.
    + rewrite (fetchCompanies_unlisted getTime svc u c rest closure w
                 Hrole Hcs Hid Hlist). done.
Qed.

Lemma fetchCompanies_settles_and_owns_one_key_witness :
  CompanyContext.localStorage
    (Eff.exec
       (CompanyContext.fetchCompanies Scenario.parseStamp
          (Scenario.listing [Scenario.tenantA; Scenario.tenantB])
          (Some (Scenario.identity "owner" [] [Scenario.membership "b"])) None)
       (Scenario.freshTab {[ "theme" := "dark" ]}))
    !! "theme"
  = Some "dark".
Proof.
  destruct (fetchCompanies_settles_and_owns_one_key Scenario.parseStamp
              (Scenario.listing [Scenario.tenantA; Scenario.tenantB])
              (Some (Scenario.identity "owner" [] [Scenario.membership "b"])) None
              (Scenario.freshTab {[ "theme" := "dark" ]})) as [_ Hother].
  rewrite Hother; [apply lookup_singleton_eq | discriminate].
Defined.

(** X27. When the list arrives non-empty for a role that browses
    tenants, a refresh always ends with a tenant selected whose id is in
    the list, and storage holds exactly that id. *)
Theorem listed_resolution_is_persisted (getTime : string -> Js.number)
    (svc : CompanyContext.CompanyService) (u : User.t) (c : UserCompany.t)
    (rest : list UserCompany.t) (fetched : list Company.t)
    (w : CompanyContext.World) :
  User.role u <> "team_member" ->
  User.companies u = c :: rest ->
  UserCompany.id c <> "" ->
  CompanyContext.list_ svc = Js.Fulfilled fetched ->
  fetched <> [] ->
  let w' := Eff.exec (CompanyContext.refreshCompanies getTime svc (Some u)) w in
  exists s,
    CompanyContext.selectedCompany w' = Some s /\
    CompanyContext.localStorage w' !! CompanyContext.SELECTED_COMPANY_STORAGE_KEY
      = Some (Company.id s) /\
    exists x, x ∈ fetched /\ Company.id x = Company.id s.
Proof.
  intros Hrole Hcs Hc Hlist Hne w'. subst w'.
  change (Eff.exec (CompanyContext.refreshCompanies getTime svc (Some u)) w)
    with (Eff.exec (CompanyContext.fetchCompanies getTime svc (Some u)
                      (CompanyContext.selectedCompany w)) w).
  rewrite (fetchCompanies_listed getTime svc u c rest fetched _ w Hrole Hcs Hc Hlist).
  assert (forall storage effects,
    exists s,
      CompanyContext.selectedCompany
        (match match Js.find (fun x => String.eqb (Company.id x) (UserCompany.id c))
                       fetched with
               | Some d => Some d
               | None => if (0 <? List.length fetched)%nat
                         then head (CompanyContext.sortByCreatedAt getTime fetched)
                         else None
               end with
         | Some d =>
             {| CompanyContext.companies := fetched;
                CompanyContext.selectedCompany := Some d;
                CompanyContext.isLoading := false;
                CompanyContext.localStorage :=
                  <[CompanyContext.SELECTED_COMPANY_STORAGE_KEY := Company.id d]>
                    storage;
                CompanyContext.log :=
                  effects
                  ++ [CompanyContext.SetItem
                        CompanyContext.SELECTED_COMPANY_STORAGE_KEY (Company.id d)] |}
         | None =>
             {| CompanyContext.companies := fetched;
                CompanyContext.selectedCompany := CompanyContext.selectedCompany w;
                CompanyContext.isLoading := false;
                CompanyContext.localStorage := storage;
                CompanyContext.log := effects |}
         end) = Some s /\
      CompanyContext.localStorage
        (match match Js.find (fun x => String.eqb (Company.id x) (UserCompany.id c))
                       fetched with
               | Some d => Some d
               | None => if (0 <? List.length fetched)%nat
                         then head (CompanyContext.sortByCreatedAt getTime fetched)
                         else None
               end with
         | Some d =>
             {| CompanyContext.companies := fetched;
                CompanyContext.selectedCompany := Some d;
                CompanyContext.isLoading := false;
                CompanyContext.localStorage :=
                  <[CompanyContext.SELECTED_COMPANY_STORAGE_KEY := Company.id d]>
                    storage;
                CompanyContext.log :=
                  effects
                  ++ [CompanyContext.SetItem
                        CompanyContext.SELECTED_COMPANY_STORAGE_KEY (Company.id d)] |}
         | None =>
             {| CompanyContext.companies := fetched;
                CompanyContext.selectedCompany := CompanyContext.selectedCompany w;
                CompanyContext.isLoading := false;
                CompanyContext.localStorage := storage;
                CompanyContext.log := effects |}
         end) !! CompanyContext.SELECTED_COMPANY_STORAGE_KEY = Some (Company.id s) /\
      exists x, x ∈ fetched /\ Company.id x = Company.id s) as Hdefault.
  { intros storage effects.
    destruct (Js.find _ fetched) as [d|] eqn:Hfirst.
    - exists d. simpl. rewrite lookup_insert_eq. repeat split.
      exists d. split; [by apply find_by_id_elem_of in Hfirst | done].
    - destruct (0 <? List.length fetched)%nat eqn:Hlen;
        [|by apply no_companies in Hlen].
      destruct (head (CompanyContext.sortByCreatedAt getTime fetched))
        as [d|] eqn:Hhead.
      + exists d. simpl. rewrite lookup_insert_eq. repeat split.
        exists d. split; [|done].
        by apply head_Some_elem_of, elem_of_sortByCreatedAt in Hhead.
      + apply head_None, sortByCreatedAt_nil in Hhead. done. }
  simpl.
  destruct (CompanyContext.selectedCompany w) as [current|] eqn:Hsel.
  - destruct (Js.find (fun x => String.eqb (Company.id x) (Company.id current))
                fetched) as [listed|] eqn:Hkept.
    + exists current. simpl. rewrite lookup_insert_eq. repeat split.
      exists listed. split; [by apply find_by_id_elem_of in Hkept|].
      by apply find_by_id_id in Hkept.
    + destruct (CompanyContext.localStorage w !! _) as [saved|];
        [destruct (Js.truthy saved && negb (String.eqb (Js.trim saved) ""));
         [destruct (Js.find (fun x => String.eqb (Company.id x) (Js.trim saved))
                      fetched) as [sc|] eqn:Hsaved|]|];
        try apply Hdefault.
      exists sc. simpl. rewrite lookup_insert_eq. repeat split.
      exists sc. split; [by apply find_by_id_elem_of in Hsaved | done].
  - destruct (CompanyContext.localStorage w !! _) as [saved|];
      [destruct (Js.truthy saved && negb (String.eqb (Js.trim saved) ""));
       [destruct (Js.find (fun x => String.eqb (Company.id x) (Js.trim saved))
                    fetched) as [sc|] eqn:Hsaved|]|];
      try apply Hdefault.
    exists sc. simpl. rewrite lookup_insert_eq. repeat split.
    exists sc. split; [by apply find_by_id_elem_of in Hsaved | done].
Qed.

Lemma listed_resolution_is_persisted_witness :
  exists s,
    CompanyContext.selectedCompany
      (Eff.exec
         (CompanyContext.refreshCompanies Scenario.parseStamp
            (Scenario.listing [Scenario.tenantB; Scenario.tenantA])
            (Some (Scenario.identity "owner" [] [Scenario.membership "z"])))
         (Scenario.freshTab ∅)) = Some s /\
    CompanyContext.localStorage
      (Eff.exec
         (CompanyContext.refreshCompanies Scenario.parseStamp
            (Scenario.listing [Scenario.tenantB; Scenario.tenantA])
            (Some (Scenario.identity "owner" [] [Scenario.membership "z"])))
         (Scenario.freshTab ∅))
      !! CompanyContext.SELECTED_COMPANY_STORAGE_KEY = Some (Company.id s) /\
    exists x, x ∈ [Scenario.tenantB; Scenario.tenantA] /\ Company.id x = Company.id s.
Proof.
  apply (listed_resolution_is_persisted Scenario.parseStamp
           (Scenario.listing [Scenario.tenantB; Scenario.tenantA])
           (Scenario.identity "owner" [] [Scenario.membership "z"])
           (Scenario.membership "z") []).
  - discriminate.
  - reflexivity.
  - discriminate.
  - reflexivity.
  - discriminate.
Defined.

(** X28. The last resort is the earliest tenant: with nothing selected,
    nothing persisted and the first membership not in the list, the
    tenant chosen from a non-empty list whose stamps are dates is one no
    other listed tenant predates, and it is persisted. *)
Theorem last_resort_is_earliest (getTime : string -> Js.number)
    (svc : CompanyContext.CompanyService) (u : User.t) (c : UserCompany.t)
    (rest : list UserCompany.t) (fetched : list Company.t)
    (w : CompanyContext.World) :
  User.role u <> "team_member" ->
  User.companies u = c :: rest ->
  UserCompany.id c <> "" ->
  CompanyContext.list_ svc = Js.Fulfilled fetched ->
  fetched <> [] ->
  Forall (fun x => is_Some (getTime (Company.created_at x))) fetched ->
  CompanyContext.selectedCompany w = None ->
  CompanyContext.localStorage w !! CompanyContext.SELECTED_COMPANY_STORAGE_KEY = None ->
  Js.find (fun x => String.eqb (Company.id x) (UserCompany.id c)) fetched = None ->
  let w' := Eff.exec (CompanyContext.refreshCompanies getTime svc (Some u)) w in
  exists (d : Company.t) (td : Z),
    CompanyContext.selectedCompany w' = Some d /\
    d ∈ fetched /\
    getTime (Company.created_at d) = Some td /\
    (forall x, x ∈ fetched ->
       exists tx, getTime (Company.created_at x) = Some tx /\ (td <= tx)%Z) /\
    CompanyContext.localStorage w' !! CompanyContext.SELECTED_COMPANY_STORAGE_KEY
      = Some (Company.id d).
Proof.
  intros Hrole Hcs Hc Hlist Hne Hdates Hsel Hstore Hfirst w'. subst w'.
  change (Eff.exec (CompanyContext.refreshCompanies getTime svc (Some u)) w)
    with (Eff.exec (CompanyContext.fetchCompanies getTime svc (Some u)
                      (CompanyContext.selectedCompany w)) w).
  rewrite (fetchCompanies_listed getTime svc u c rest fetched _ w Hrole Hcs Hc Hlist).
  rewrite Hsel, Hstore, Hfirst. simpl.
  destruct (0 <? List.length fetched)%nat eqn:Hlen;
    [|by apply no_companies in Hlen].
  destruct (sortByCreatedAt_head_earliest getTime fetched Hdates Hne)
    as (before & d & after & td & Hsplit & Hhead & Htd & Hbefore & Hafter).
  rewrite Hhead. exists d, td. simpl. rewrite lookup_insert_eq.
  split; [done|]. split.
  { rewrite Hsplit. apply elem_of_app. right. by left. }
  split; [done|]. split; [|done].
  rewrite Hsplit. intros x [Hx|[->|Hx]%elem_of_cons]%elem_of_app.
  - destruct (Hbefore x Hx) as (tx & Htx & Hlt). exists tx. split; [done | lia].
  - exists td. split; [done | lia].
  - by apply Hafter.
Qed.

Lemma last_resort_is_earliest_witness :
  exists (d : Company.t) (td : Z),
    CompanyContext.selectedCompany
      (Eff.exec
         (CompanyContext.refreshCompanies Scenario.parseStamp
            (Scenario.listing [Scenario.tenantB; Scenario.tenantA])
            (Some (Scenario.identity "owner" [] [Scenario.membership "z"])))
         (Scenario.freshTab ∅)) = Some d /\
    d ∈ [Scenario.tenantB; Scenario.tenantA] /\
    Scenario.parseStamp (Company.created_at d) = Some td /\
    (forall x, x ∈ [Scenario.tenantB; Scenario.tenantA] ->
       exists tx, Scenario.parseStamp (Company.created_at x) = Some tx /\ (td <= tx)%Z) /\
    CompanyContext.localStorage
      (Eff.exec
         (CompanyContext.refreshCompanies Scenario.parseStamp
            (Scenario.listing [Scenario.tenantB; Scenario.tenantA])
            (Some (Scenario.identity "owner" [] [Scenario.membership "z"])))
         (Scenario.freshTab ∅))
      !! CompanyContext.SELECTED_COMPANY_STORAGE_KEY = Some (Company.id d).
Proof.
  apply (last_resort_is_earliest Scenario.parseStamp
           (Scenario.listing [Scenario.tenantB; Scenario.tenantA])
           (Scenario.identity "owner" [] [Scenario.membership "z"])
           (Scenario.membership "z") []).
  - discriminate.
  - reflexivity.
  - discriminate.
  - reflexivity.
  - discriminate.
  - repeat constructor; by eexists.
  - reflexivity.
  - apply lookup_empty.
  - reflexivity.
Defined.

(** X29. An empty list does not clear the selection: the tenant selected
    before stays selected although it is no longer listed, nothing is
    written to storage, and a non-blank persisted entry is removed. *)
Theorem empty_list_keeps_selection (getTime : string -> Js.number)
    (svc : CompanyContext.CompanyService) (u : User.t) (c : UserCompany.t)
    (rest : list UserCompany.t) (closure : option Company.t)
    (w : CompanyContext.World) :
  User.role u <> "team_member" ->
  User.companies u = c :: rest ->
  UserCompany.id c <> "" ->
  CompanyContext.list_ svc = Js.Fulfilled [] ->
  let key := CompanyContext.SELECTED_COMPANY_STORAGE_KEY in
  let w' := Eff.exec (CompanyContext.fetchCompanies getTime svc (Some u) closure) w in
  CompanyContext.selectedCompany w' = CompanyContext.selectedCompany w /\
  CompanyContext.companies w' = [] /\
  CompanyContext.localStorage w' =
    match CompanyContext.localStorage w !! key with
    | Some saved =>
        if Js.truthy saved && negb (String.eqb (Js.trim saved) "")
        then delete key (CompanyContext.localStorage w)
        else CompanyContext.localStorage w
    | None => CompanyContext.localStorage w
    end.
Proof.
  intros Hrole Hcs Hc Hlist key w'. subst w' key.
  rewrite (fetchCompanies_listed getTime svc u c rest [] closure w Hrole Hcs Hc Hlist).
  simpl.
  destruct closure; destruct (CompanyContext.localStorage w !! _) as [saved|];
    try done; by destruct (Js.truthy saved && _).
Qed.

Lemma empty_list_keeps_selection_witness :
  CompanyContext.selectedCompany
    (Eff.exec
       (CompanyContext.fetchCompanies Scenario.parseStamp (Scenario.listing [])
          (Some (Scenario.identity "owner" [] [Scenario.membership "b"]))
          (Some Scenario.tenantB))
       (Eff.exec (CompanyContext.setSelectedCompany (Some Scenario.tenantB))
          (Scenario.freshTab ∅)))
  = Some Scenario.tenantB.
Proof.
  apply (empty_list_keeps_selection Scenario.parseStamp (Scenario.listing [])
           (Scenario.identity "owner" [] [Scenario.membership "b"])
           (Scenario.membership "b") [] (Some Scenario.tenantB)).
  - discriminate.
  - reflexivity.
  - discriminate.
  - reflexivity.
Defined.
